(** * Tutoring API (main.py): a shallow embedding and its properties

    The request handlers of [main.py] ([list_tutors], [seed_sample_data],
    [test_database]) are embedded as functions in a state-and-exception monad
    over a model of the document store.  Python dictionaries are finite maps
    from strings to values; the store's collections are lists of documents in
    the store's return order. *)

From Stdlib Require Import ZArith NArith List Ascii String Lia.
From stdpp Require Import gmap strings list fin_maps.

#[local] Set Warnings "-register-all".

Local Open Scope string_scope.
Local Open Scope list_scope.
Local Open Scope Z_scope.

(** ** Values and documents *)

(** The values held by documents and by JSON responses.  A float is
    identified by the literal Python prints for it ([4.8] is [VFloat "4.8"]);
    an [ObjectId] by the 96-bit number of its twelve bytes.  Characters of a
    string are the elements of a [string]; the non-ASCII markers of the source
    stand in their UTF-8 encoding. *)
Inductive value : Type :=
  | VNull
  | VStr (s : string)
  | VInt (z : Z)
  | VFloat (lit : string)
  | VList (l : list value)
  | VOid (n : N).

(** A Python [dict] with string keys: a stored document, a shaped record or a
    JSON response body. *)
Abbreviation doc := (gmap string value).

(** [d.get(k)]: [None] when the key is absent. *)
Definition py_get (d : doc) (k : string) : value := default VNull (d !! k).

(** [d.get(k, dflt)]. *)
Definition py_get_default (d : doc) (k : string) (dflt : value) : value :=
  default dflt (d !! k).

(** [d.pop(k, None)], for its effect on [d]. *)
Definition py_pop (d : doc) (k : string) : doc := delete k d.

(** Structural equality of values ([==] on the kinds modelled). *)
Fixpoint value_eqb (a b : value) {struct a} : bool :=
  match a, b with
  | VNull, VNull => true
  | VStr s, VStr t => bool_decide (s = t)
  | VInt x, VInt y => Z.eqb x y
  | VFloat x, VFloat y => bool_decide (x = y)
  | VList l, VList l' =>
      (fix go (l l' : list value) {struct l} : bool :=
         match l, l' with
         | [], [] => true
         | x :: xs, y :: ys => value_eqb x y && go xs ys
         | _, _ => false
         end) l l'
  | VOid n, VOid m => N.eqb n m
  | _, _ => false
  end.

(** ** Rendering identifiers and dates *)

Definition hex_digit (n : N) : ascii :=
  match n with
  | 0 => "0" | 1 => "1" | 2 => "2" | 3 => "3" | 4 => "4" | 5 => "5"
  | 6 => "6" | 7 => "7" | 8 => "8" | 9 => "9" | 10 => "a" | 11 => "b"
  | 12 => "c" | 13 => "d" | 14 => "e" | _ => "f"
  end%N%char.

(** [w] lowercase hexadecimal digits of [n], most significant first. *)
Fixpoint hex_fixed (w : nat) (n : N) : string :=
  match w with
  | O => ""
  | S w' => hex_fixed w' (n / 16) +:+ String (hex_digit (n mod 16)) ""
  end.

(** [str(ObjectId)]: twenty-four hexadecimal digits. *)
Definition oid_hex (n : N) : string := hex_fixed 24 n.

(** Python's [datetime.date] is modelled by its proleptic Gregorian ordinal
    ([date.toordinal()]: day 1 is 0001-01-01); [d + timedelta(days=k)] is
    [d + k] when that day is within the years 1 to 9999 that Python
    represents (see [date_add] for the other case).  [ord2ymd] follows
    [datetime._ord2ymd]. *)
Definition DI400Y : Z := 146097.
Definition DI100Y : Z := 36524.
Definition DI4Y : Z := 1461.

Definition DAYS_IN_MONTH (m : Z) : Z :=
  match m with
  | 1 => 31 | 2 => 28 | 3 => 31 | 4 => 30 | 5 => 31 | 6 => 30
  | 7 => 31 | 8 => 31 | 9 => 30 | 10 => 31 | 11 => 30 | 12 => 31
  | _ => 0
  end.

Definition DAYS_BEFORE_MONTH (m : Z) : Z :=
  match m with
  | 1 => 0 | 2 => 31 | 3 => 59 | 4 => 90 | 5 => 120 | 6 => 151
  | 7 => 181 | 8 => 212 | 9 => 243 | 10 => 273 | 11 => 304 | 12 => 334
  | _ => 0
  end.

Definition ord2ymd (ordinal : Z) : Z * Z * Z :=
  let n := ordinal - 1 in
  let n400 := n / DI400Y in
  let n := n mod DI400Y in
  let year := n400 * 400 + 1 in
  let n100 := n / DI100Y in
  let n := n mod DI100Y in
  let n4 := n / DI4Y in
  let n := n mod DI4Y in
  let n1 := n / 365 in
  let n := n mod 365 in
  let year := year + n100 * 100 + n4 * 4 + n1 in
  if (n1 =? 4) || (n100 =? 4) then (year - 1, 12, 31)
  else
    let leapyear := (n1 =? 3) && (negb (n4 =? 24) || (n100 =? 3)) in
    let month := Z.shiftr (n + 50) 5 in
    let preceding :=
      DAYS_BEFORE_MONTH month + (if (2 <? month) && leapyear then 1 else 0) in
    if n <? preceding then
      let month := month - 1 in
      let preceding :=
        preceding
        - (DAYS_IN_MONTH month + (if (month =? 2) && leapyear then 1 else 0)) in
      (year, month, n - preceding + 1)
    else (year, month, n - preceding + 1).

(** [w] decimal digits of [n], zero padded (the [%04d] and [%02d] of
    [date.isoformat], for a non-negative [n] of at most [w] digits). *)
Fixpoint dec_fixed (w : nat) (n : Z) : string :=
  match w with
  | O => ""
  | S w' => dec_fixed w' (n / 10) +:+ String (hex_digit (Z.to_N (n mod 10))) ""
  end.

(** [str(d)] for a date [d]: [YYYY-MM-DD]. *)
Definition date_str (ordinal : Z) : string :=
  let '(y, m, d) := ord2ymd ordinal in
  dec_fixed 4 y +:+ "-" +:+ dec_fixed 2 m +:+ "-" +:+ dec_fixed 2 d.

(** [s[:n]]. *)
Definition py_slice_to (n : nat) (s : string) : string := String.substring 0 n s.

(** ** The store and the handlers' monad *)

(** Operations sent to the store, in the order they are issued. *)
Inductive op : Type :=
  | OpFind (coll : string) (flt : doc)
  | OpCount (coll : string) (flt : doc)
  | OpInsert (coll : string) (d : doc)
  | OpListCollections.

(** The document store: its collections (each in the store's return order),
    the next identifier it hands out, whether listing the collections
    currently fails (and with which message), and the operations received. *)
Record world : Type := World {
  colls : gmap string (list doc);
  next_oid : N;
  list_fault : option string;
  trace : list op
}.

Definition collection (w : world) (c : string) : list doc :=
  default [] (colls w !! c).

Definition log (o : op) (w : world) : world :=
  World (colls w) (next_oid w) (list_fault w) (trace w ++ [o]).

(** Exceptions raised by the handlers. [ValidationError] names the model and
    the fields that failed; [OverflowError] is raised by date arithmetic that
    leaves the range of dates. *)
Inductive exn : Type :=
  | HTTPException (status_code : Z) (detail : string)
  | ValidationError (model : string) (fields : list string)
  | IndexError
  | OverflowError.

(** Computations over a state [S] that return an [A] or raise an [E]; a
    raised exception keeps the state reached. *)
Definition M (S E A : Type) : Type := S -> (E + A) * S.

#[global] Instance M_ret {S E} : MRet (M S E) := fun A x s => (inr x, s).

#[global] Instance M_bind {S E} : MBind (M S E) := fun A B f m s =>
  match m s with
  | (inl e, s') => (inl e, s')
  | (inr a, s') => f a s'
  end.

Definition raise {S E A} (e : E) : M S E A := fun s => (inl e, s).

(** [try: body except Exception as e: handler e]. *)
Definition try_except {S E E' A} (body : M S E A) (handler : E -> M S E' A)
  : M S E' A := fun s =>
  match body s with
  | (inl e, s') => handler e s'
  | (inr a, s') => (inr a, s')
  end.

(** [for x in l: ys.append(f x)]. *)
Fixpoint for_each {S E A B} (f : A -> M S E B) (l : list A) : M S E (list B) :=
  match l with
  | [] => mret []
  | x :: xs => y ← f x; ys ← for_each f xs; mret (y :: ys)
  end.

(** [l[i]]. *)
Definition py_index {S A} (l : list A) (i : nat) : M S exn A :=
  match l !! i with
  | Some x => mret x
  | None => raise IndexError
  end.

(** The status of the HTTP response to a handler's outcome: 200 for a
    returned value; for an exception that leaves the handler, the status of an
    [HTTPException] and 500 for any other. *)
Definition exn_status (e : exn) : Z :=
  match e with
  | HTTPException c _ => c
  | _ => 500
  end.

Definition http_status {E A} (status : E -> Z) (r : E + A) : Z :=
  match r with
  | inr _ => 200
  | inl e => status e
  end.

(** *** Store capabilities

    The handle [db] is created in [database.py], which is not among the
    sources; section 2 of the specification gives the store as the
    capabilities [find], [count], [insert] and [listCollections]. *)

(** Modelled from the spec: the filters of [find] and [count] on the handle
    [db] ([database.py], not among the sources). A filter matches a document
    that holds every value of the filter under the same key. *)
Definition matches (flt d : doc) : bool :=
  forallb (fun kv => match d !! kv.1 with
                     | Some v => value_eqb v kv.2
                     | None => false
                     end) (map_to_list flt).

(** Modelled from the spec: [find] on the handle [db] ([database.py], not
    among the sources), called as [list(db[coll].find(flt))]: the matching
    documents of the collection, in the store's order. *)
Definition find {E} (coll : string) (flt : doc) : M world E (list doc) :=
  fun w => (inr (List.filter (matches flt) (collection w coll)),
            log (OpFind coll flt) w).

(** Modelled from the spec: [count] on the handle [db] ([database.py], not
    among the sources), called as [db[coll].count_documents(flt)]. *)
Definition count_documents {E} (coll : string) (flt : doc) : M world E Z :=
  fun w => (inr (Z.of_nat (length (List.filter (matches flt) (collection w coll)))),
            log (OpCount coll flt) w).

(** Modelled from the spec: [insert] on the handle [db] ([database.py], not
    among the sources), [db[coll].insert_one(d).inserted_id]: the document is
    stored last in its collection under a fresh identifier (the records this
    program inserts carry no [_id] of their own). *)
Definition insert_one {E} (coll : string) (d : doc) : M world E N :=
  fun w =>
    let n := next_oid w in
    let stored := <["_id" := VOid n]> d in
    (inr n,
     World (<[coll := collection w coll ++ [stored]]> (colls w))
           (N.succ n) (list_fault w) (trace w ++ [OpInsert coll stored])).

(** Modelled from the spec: [listCollections] on the handle [db]
    ([database.py], not among the sources), called as
    [db.list_collection_names()]; a failure raises an exception, given here
    by its message [str(e)]. *)
Definition list_collection_names : M world string (list string) :=
  fun w =>
    match list_fault w with
    | Some msg => (inl msg, log OpListCollections w)
    | None => (inr (map_to_list (colls w)).*1, log OpListCollections w)
    end.

(** Modelled from the spec: [get_documents] of [database.py] (not among the
    sources) retrieves all documents of a collection, in store order. *)
Definition get_documents {E} (coll : string) : M world E (list doc) :=
  find coll ∅.

(** Modelled from the spec: [create_document] of [database.py] (not among the
    sources) inserts the record's fields as a document and returns the string
    form of the identifier the store assigned. *)
Definition create_document {E} (coll : string) (d : doc) : M world E string :=
  n ← insert_one coll d; mret (oid_hex n).

(** ** Library behaviour left open

    Python's [str] on numbers and lists, and pydantic's conversion to [str] or
    [float] of a value that is neither of that kind nor [None] (the result is
    [None] when pydantic rejects the value; the accepted conversions differ
    between pydantic versions). *)
Abbreviation pyfloat := string (only parsing).

Class PyLib : Type := {
  str_other : value -> string;
  lax_str : value -> option string;
  lax_float : value -> option pyfloat
}.

(** Every conversion rejected: the instance used where examples are
    evaluated. None of them renders a number or a list. *)
Definition strict_lib : PyLib :=
  {| str_other := fun _ => ""; lax_str := fun _ => None; lax_float := fun _ => None |}.

(** [str(v)] *)
Definition py_str `{PyLib} (v : value) : string :=
  match v with
  | VNull => "None"
  | VStr s => s
  | VOid n => oid_hex n
  | _ => str_other v
  end.

(** ** The response model [TutorOut] *)

Module TutorOut.
Record t : Type := mk {
  id : string;
  name : string;
  subjects : list string;
  bio : option string;
  location : option string;
  photo_url : option string;
  rating : option pyfloat;
  availabilities : list doc
}.
End TutorOut.

(** Validation of one argument against the annotation of its field. *)
Definition validate_str `{PyLib} (v : value) : option string :=
  match v with
  | VStr s => Some s
  | VNull => None
  | _ => lax_str v
  end.

Definition validate_float `{PyLib} (v : value) : option pyfloat :=
  match v with
  | VFloat x => Some x
  | VNull => None
  | _ => lax_float v
  end.

Definition validate_optional {A} (f : value -> option A) (v : value)
  : option (option A) :=
  match v with
  | VNull => Some None
  | _ => Some <$> f v
  end.

Definition validate_list_str `{PyLib} (v : value) : option (list string) :=
  match v with
  | VList l => mapM validate_str l
  | _ => None
  end.

Definition failed {A} (field : string) (o : option A) : list string :=
  match o with
  | Some _ => []
  | None => [field]
  end.

(** [TutorOut(id=..., name=..., ...)]: the instance, or the validation error
    naming every field whose argument was rejected. *)
Definition TutorOut_init `{PyLib} (id : string)
    (name subjects bio location photo_url rating : value)
    (availabilities : list doc) : exn + TutorOut.t :=
  let name' := validate_str name in
  let subjects' := validate_list_str subjects in
  let bio' := validate_optional validate_str bio in
  let location' := validate_optional validate_str location in
  let photo_url' := validate_optional validate_str photo_url in
  let rating' := validate_optional validate_float rating in
  match name', subjects', bio', location', photo_url', rating' with
  | Some n, Some s, Some b, Some l, Some p, Some r =>
      inr (TutorOut.mk id n s b l p r availabilities)
  | _, _, _, _, _, _ =>
      inl (ValidationError "TutorOut"
             (failed "name" name' ++ failed "subjects" subjects'
              ++ failed "bio" bio' ++ failed "location" location'
              ++ failed "photo_url" photo_url' ++ failed "rating" rating'))
  end.

Definition lift {S E A} (r : E + A) : M S E A := fun s => (r, s).

(** ** The handle [db] *)

Module Database.
(** The handle's [name] attribute, when it has one. *)
Record t : Type := mk { name : option string }.
End Database.

(** ** [GET /api/tutors] *)

(** The body of [for a in avails]. *)
Definition shape_availability `{PyLib} (a : doc) : doc :=
  py_pop (<["id" := VStr (py_str (py_get a "_id"))]> a) "_id".

(** The body of [for t in tutors]. *)
Definition tutor_view `{PyLib} (t : doc) : M world exn TutorOut.t :=
  let tutor_id := py_str (py_get t "_id") in
  avails ← find "availability" {[ "tutor_id" := VStr tutor_id ]};
  let avails := shape_availability <$> avails in
  lift (TutorOut_init tutor_id
          (py_get t "name")
          (py_get_default t "subjects" (VList []))
          (py_get t "bio")
          (py_get t "location")
          (py_get t "photo_url")
          (py_get t "rating")
          avails).

Definition list_tutors `{PyLib} (db : option Database.t)
  : M world exn (list TutorOut.t) :=
  match db with
  | None => raise (HTTPException 500 "Database not configured")
  | Some _ =>
      tutors ← get_documents "tutor";
      for_each tutor_view tutors
  end.

(** ** [POST /api/seed] *)

Definition opt_value (o : option string) (f : string -> value) : value :=
  match o with
  | Some x => f x
  | None => VNull
  end.

(** Modelled from the spec: the schemas [Tutor] and [Availability] of
    [schemas.py] (not among the sources), with the fields of section 3 of the
    specification under the names the handlers pass them by.  An instance is
    given by the dictionary of its fields, which is what [create_document]
    stores. *)
Definition Tutor (name : string) (subjects : list string)
    (bio location photo_url : option string) (rating : option pyfloat) : doc :=
  {[ "name" := VStr name;
     "subjects" := VList (VStr <$> subjects);
     "bio" := opt_value bio VStr;
     "location" := opt_value location VStr;
     "photo_url" := opt_value photo_url VStr;
     "rating" := opt_value rating VFloat ]}.

(** Modelled from the spec: the schema [Availability] of [schemas.py] (not
    among the sources), with the fields of section 3 of the specification. *)
Definition Availability (tutor_id date time location : string)
    (notes : option string) : doc :=
  {[ "tutor_id" := VStr tutor_id;
     "date" := VStr date;
     "time" := VStr time;
     "location" := VStr location;
     "notes" := opt_value notes VStr ]}.

(** The three tutors of the seed. *)
Definition seed_tutors : list doc :=
  [ Tutor "Alex Chen" ["Math"; "Physics"]
      (Some "STEM tutor with 7+ years helping high school and college students.")
      (Some "San Francisco, CA")
      (Some "https://images.unsplash.com/photo-1544005313-94ddf0286df2?w=400")
      (Some "4.8");
    Tutor "Priya Sharma" ["English"; "Writing"; "SAT"]
      (Some "Former teacher specializing in test prep and essays.")
      (Some "New York, NY")
      (Some "https://images.unsplash.com/photo-1524504388940-b1c1722653e1?w=400")
      (Some "4.9");
    Tutor "Miguel Alvarez" ["Chemistry"; "Biology"]
      (Some "Patient explainer of tricky science concepts.")
      (Some "Austin, TX")
      (Some "https://images.unsplash.com/photo-1547425260-76bcadfb4f2c?w=400")
      (Some "4.7") ].

(** The range of [datetime.date]: the ordinals of [date.min] (0001-01-01)
    and [date.max] (9999-12-31). *)
Definition date_min : Z := 1.
Definition date_max : Z := 3652059.

(** [d + dt.timedelta(days=k)]: the date [k] days after [d], or
    [OverflowError] when that day is outside the range of dates. *)
Definition date_add {S} (d k : Z) : M S exn Z :=
  if (date_min <=? d + k) && (d + k <=? date_max) then mret (d + k)
  else raise OverflowError.

(** The five slots of the seed, for the identifiers [tutor_ids] and the
    current date [today]; the arguments of each slot are evaluated in the
    order they are written, slot after slot, before any slot is inserted. *)
Definition seed_slots {S} (tutor_ids : list string) (today : Z)
  : M S exn (list doc) :=
  id0 ← py_index tutor_ids 0;
  d1 ← date_add today 1;
  id0' ← py_index tutor_ids 0;
  d3 ← date_add today 3;
  id1 ← py_index tutor_ids 1;
  d2 ← date_add today 2;
  id1' ← py_index tutor_ids 1;
  d5 ← date_add today 5;
  id2 ← py_index tutor_ids 2;
  d1' ← date_add today 1;
  mret
    [ Availability id0 (date_str d1) "3:00 PM - 5:00 PM"
        "Downtown Library" (Some "SAT practice");
      Availability id0' (date_str d3) "10:00 AM - 12:00 PM"
        "Online" None;
      Availability id1 (date_str d2) "4:00 PM - 6:00 PM"
        "Union Square" (Some "Essay review");
      Availability id1' (date_str d5) "1:00 PM - 2:30 PM"
        "Online" None;
      Availability id2 (date_str d1') "9:00 AM - 11:00 AM"
        "Campus Cafe" (Some "Lab concepts") ].

(** [today] is the value of [dt.date.today()] at the call, a date between
    [date_min] and [date_max]. *)
Definition seed_sample_data (db : option Database.t) (today : Z)
  : M world exn doc :=
  match db with
  | None => raise (HTTPException 500 "Database not configured")
  | Some _ =>
      tutor_count ← count_documents "tutor" ∅;
      if 0 <? tutor_count then
        mret {[ "message" := VStr "Data already exists";
                "tutors" := VInt tutor_count ]}
      else
        let tutors := seed_tutors in
        tutor_ids ← for_each (create_document "tutor") tutors;
        slots ← seed_slots tutor_ids today;
        _ ← for_each (create_document "availability") slots;
        mret {[ "message" := VStr "Seeded sample tutors and availability";
                "tutors" := VInt (Z.of_nat (length tutors));
                "slots" := VInt (Z.of_nat (length slots)) ]}
  end.

(** ** [GET /test] *)

(** The handler's local [response] is part of the state next to the store, so
    that an [except] clause sees the assignments made before the exception. *)
Definition on_store {E A} (m : M world E A) : M (doc * world) E A :=
  fun s => let '(r, w') := m s.2 in (r, (s.1, w')).

(** [response[k] = v] *)
Definition set_item {E} (k : string) (v : value) : M (doc * world) E unit :=
  fun s => (inr tt, (<[k := v]> s.1, s.2)).

Definition with_response {E} (response : doc) (body : M (doc * world) E unit)
  : M world E doc :=
  fun w => let '(r, s) := body (response, w) in
           (match r with inl e => inl e | inr _ => inr s.1 end, s.2).

(** Truth value of [os.getenv(k)]: the variable is set and not empty. *)
Definition getenv_true (env : gmap string string) (k : string) : bool :=
  match env !! k with
  | Some (String _ _) => true
  | _ => false
  end.

Definition test_database (db : option Database.t) (env : gmap string string)
  : M world string doc :=
  with_response
    {[ "backend" := VStr "✅ Running";
       "database" := VStr "❌ Not Available";
       "database_url" := VNull;
       "database_name" := VNull;
       "connection_status" := VStr "Not Connected";
       "collections" := VList [] ]}
    (_ ← try_except
           (match db with
            | Some d =>
                _ ← set_item "database" (VStr "✅ Available");
                _ ← set_item "database_url" (VStr "✅ Configured");
                _ ← set_item "database_name"
                      (VStr (match Database.name d with
                             | Some n => n
                             | None => "✅ Connected"
                             end));
                _ ← set_item "connection_status" (VStr "Connected");
                try_except
                  (collections ← on_store list_collection_names;
                   _ ← set_item "collections"
                         (VList (VStr <$> take 10 collections));
                   set_item "database" (VStr "✅ Connected & Working"))
                  (fun e : string =>
                     set_item "database"
                       (VStr ("⚠️  Connected but Error: " +:+ py_slice_to 50 e)))
            | None =>
                set_item "database" (VStr "⚠️  Available but not initialized")
            end)
           (fun e : string =>
              set_item "database" (VStr ("❌ Error: " +:+ py_slice_to 50 e)));
     _ ← set_item "database_url"
           (VStr (if getenv_true env "DATABASE_URL" then "✅ Set" else "❌ Not Set"));
     set_item "database_name"
       (VStr (if getenv_true env "DATABASE_NAME" then "✅ Set" else "❌ Not Set"))).

(** ** Definitions used in the statements *)

(** The value a response holds under [k], when the handler returned one. *)
Definition response_field {E} (k : string) (out : (E + doc) * world)
  : option value :=
  match out.1 with
  | inr r => r !! k
  | inl _ => None
  end.

(** The filter [list_tutors] queries the availabilities of [t] with. *)
Definition tutor_filter `{PyLib} (t : doc) : doc :=
  {[ "tutor_id" := VStr (py_str (py_get t "_id")) ]}.

(** Documents as stored, and the identifiers returned, when [docs] are
    inserted one after the other from the identifier [n] on. *)
Definition stored (n : N) (docs : list doc) : list doc :=
  imap (fun i d => <["_id" := VOid (n + N.of_nat i)]> d) docs.

Definition new_ids (n : N) (docs : list doc) : list string :=
  imap (fun i _ => oid_hex (n + N.of_nat i)) docs.

(** The slots [seed_slots] builds for the identifiers of the three tutors. *)
Definition slots_for (id0 id1 id2 : string) (today : Z) : list doc :=
  [ Availability id0 (date_str (today + 1)) "3:00 PM - 5:00 PM"
      "Downtown Library" (Some "SAT practice");
    Availability id0 (date_str (today + 3)) "10:00 AM - 12:00 PM"
      "Online" None;
    Availability id1 (date_str (today + 2)) "4:00 PM - 6:00 PM"
      "Union Square" (Some "Essay review");
    Availability id1 (date_str (today + 5)) "1:00 PM - 2:30 PM"
      "Online" None;
    Availability id2 (date_str (today + 1)) "9:00 AM - 11:00 AM"
      "Campus Cafe" (Some "Lab concepts") ].

(** The responses of the seed. *)
Definition seeded_response : doc :=
  {[ "message" := VStr "Seeded sample tutors and availability";
     "tutors" := VInt 3;
     "slots" := VInt 5 ]}.

Definition exists_response (tutor_count : Z) : doc :=
  {[ "message" := VStr "Data already exists";
     "tutors" := VInt tutor_count ]}.

(** The value of a hexadecimal digit. *)
Definition hex_val (c : ascii) : N :=
  match c with
  | "0" => 0 | "1" => 1 | "2" => 2 | "3" => 3 | "4" => 4 | "5" => 5
  | "6" => 6 | "7" => 7 | "8" => 8 | "9" => 9 | "a" => 10 | "b" => 11
  | "c" => 12 | "d" => 13 | "e" => 14 | _ => 15
  end%char%N.

(** A tutor document every field of which has the kind its annotation in
    [TutorOut] names, so that validation needs no conversion. *)
Definition optional_str (o : option value) : bool :=
  match o with
  | None | Some VNull | Some (VStr _) => true
  | _ => false
  end.

Definition is_str (v : value) : bool :=
  match v with
  | VStr _ => true
  | _ => false
  end.

Definition well_typed (t : doc) : bool :=
  match t !! "name" with Some (VStr _) => true | _ => false end
  && match t !! "subjects" with
     | None => true
     | Some (VList l) => forallb is_str l
     | _ => false
     end
  && optional_str (t !! "bio")
  && optional_str (t !! "location")
  && optional_str (t !! "photo_url")
  && match t !! "rating" with
     | None | Some VNull | Some (VFloat _) => true
     | _ => false
     end.

(** *** Sample stores *)

Definition demo_db : Database.t := Database.mk (Some "tutoring").

Definition empty_store : world := World ∅ 0 None [].

(** Two tutors, the second with a name only; two slots of the first tutor and
    one slot that refers to no tutor. *)
Definition demo_store : world :=
  World
    {[ "tutor" :=
         [ <["_id" := VOid 1]>
             (Tutor "Ada Park" ["Math"] (Some "Algebra and calculus.") None None
                (Some "4.5"));
           {[ "_id" := VOid 2; "name" := VStr "Bo Lind" ]} ];
       "availability" :=
         [ <["_id" := VOid 10]>
             (Availability (oid_hex 1) "2026-11-05" "3:00 PM - 5:00 PM"
                "Library" None);
           <["_id" := VOid 11]>
             (Availability "ffffffffffffffffffffffff" "2026-11-06"
                "9:00 AM - 10:00 AM" "Online" None);
           <["_id" := VOid 12]>
             (Availability (oid_hex 1) "2026-11-08" "1:00 PM - 2:00 PM"
                "Online" (Some "Exam review")) ] ]}
    13 None [].

(** A tutor document without [name]. *)
Definition nameless_store : world :=
  World
    {[ "tutor" :=
         [ {[ "_id" := VOid 1; "subjects" := VList [VStr "Math"];
              "rating" := VFloat "4.2" ]} ] ]}
    2 None [].

(** A tutor document that holds its identifier only. *)
Definition bare_store : world :=
  World {[ "tutor" := [ {[ "_id" := VOid 1 ]} ] ]} 2 None [].

(** No tutor, and one slot left over. *)
Definition leftover_store : world :=
  World
    {[ "availability" :=
         [ <["_id" := VOid 7]>
             (Availability (oid_hex 3) "2026-10-01" "9:00 AM - 10:00 AM"
                "Online" None) ] ]}
    8 None [].

(** A store whose collection listing fails. *)
Definition failing_store : world :=
  World ∅ 0
    (Some "localhost:27017: [Errno 111] Connection refused, Timeout: 30s, Topology Description: <unknown>")
    [].

(** Environments in which [DATABASE_URL] is set, to the empty string and to
    a connection string. *)
Definition env_empty_url : gmap string string :=
  {[ "DATABASE_URL" := ""; "DATABASE_NAME" := "tutoring" ]}.

Definition env_full_url : gmap string string :=
  {[ "DATABASE_URL" := "mongodb://localhost:27017"; "DATABASE_NAME" := "tutoring" ]}.

Definition env_other_url : gmap string string :=
  {[ "DATABASE_URL" := "mongodb://db.internal:27017"; "DATABASE_NAME" := "prod" ]}.

(** The listing of [demo_store]. *)
Definition demo_listing : (exn + list TutorOut.t) * world :=
  @list_tutors strict_lib (Some demo_db) demo_store.

Definition demo_views : list TutorOut.t :=
  match demo_listing.1 with
  | inr views => views
  | inl _ => []
  end.

(** * Properties *)

(** ** Values and filters *)

Section value_induction.
Variable P : value -> Prop.
Hypothesis HNull : P VNull.
Hypothesis HStr : forall s, P (VStr s).
Hypothesis HInt : forall z, P (VInt z).
Hypothesis HFloat : forall x, P (VFloat x).
Hypothesis HList : forall l, Forall P l -> P (VList l).
Hypothesis HOid : forall n, P (VOid n).

(** Induction on values, with the hypothesis for every element of a list. *)
Fixpoint value_nested_ind (v : value) : P v :=
  match v with
  | VNull => HNull
  | VStr s => HStr s
  | VInt z => HInt z
  | VFloat x => HFloat x
  | VList l =>
      HList l ((fix go (l : list value) : Forall P l :=
                  match l with
                  | [] => @List.Forall_nil _ P
                  | x :: xs =>
                      @List.Forall_cons _ P x xs (value_nested_ind x) (go xs)
                  end) l)
  | VOid n => HOid n
  end.
End value_induction.

Lemma value_eqb_eq (a b : value) : value_eqb a b = true <-> a = b.
Proof.
  revert b. induction a as [|s|z|x|l IH|n] using value_nested_ind;
    intros [|s'|z'|x'|l'|n']; simpl; try (split; [discriminate | congruence]).
  - tauto.
  - rewrite bool_decide_eq_true. split; congruence.
  - rewrite Z.eqb_eq. split; congruence.
  - rewrite bool_decide_eq_true. split; congruence.
  - revert l'. induction IH as [|x xs Hx _ IHxs]; intros [|y ys];
      try (split; [discriminate | congruence]); [tauto|].
    rewrite andb_true_iff, Hx, IHxs. split.
    + intros [-> [= ->]]. reflexivity.
    + intros [= -> ->]. tauto.
  - rewrite N.eqb_eq. split; congruence.
Qed.

#[global] Instance value_eq_dec : EqDecision value.
Proof.
  intros a b. destruct (value_eqb a b) eqn:E.
  - left. by apply value_eqb_eq.
  - right. intros H. apply value_eqb_eq in H. congruence.
Defined.

(** A filter selects the documents that agree with it on each of its keys. *)
Lemma matches_spec (flt d : doc) :
  matches flt d = true <-> forall k v, flt !! k = Some v -> d !! k = Some v.
Proof.
  unfold matches. rewrite forallb_forall. split.
  - intros H k v Hk. specialize (H (k, v)). simpl in H.
    assert (Hin : In (k, v) (map_to_list flt)).
    { apply list_elem_of_In, elem_of_map_to_list. exact Hk. }
    specialize (H Hin). destruct (d !! k) as [v'|]; [|discriminate].
    apply value_eqb_eq in H. congruence.
  - intros H [k v] Hin. simpl.
    apply list_elem_of_In, elem_of_map_to_list in Hin.
    rewrite (H k v Hin). by apply value_eqb_eq.
Qed.

Lemma matches_empty (d : doc) : matches ∅ d = true.
Proof. apply matches_spec. intros k v. by rewrite lookup_empty. Qed.

Lemma matches_singleton (k : string) (v : value) (d : doc) :
  matches {[ k := v ]} d = bool_decide (d !! k = Some v).
Proof.
  apply eq_true_iff_eq. rewrite matches_spec, bool_decide_eq_true. split.
  - intros H. apply H. apply lookup_singleton_eq.
  - intros H k' v' Hk. apply lookup_singleton_Some in Hk as [<- <-]. exact H.
Qed.

Lemma filter_matches_empty (l : list doc) : List.filter (matches ∅) l = l.
Proof.
  induction l as [|x l IH]; simpl; [done|]. by rewrite matches_empty, IH.
Qed.

Lemma filter_none {A} (P : A -> Prop) `{!forall x, Decision (P x)} (l : list A) :
  Forall (fun x => ~ P x) l -> List.filter (fun x => bool_decide (P x)) l = [].
Proof.
  induction 1 as [|x l Hx _ IH]; [reflexivity|].
  cbn [List.filter]. by rewrite bool_decide_eq_false_2.
Qed.

(** ** Identifiers *)

Lemma hex_val_digit (a : N) : (a < 16)%N -> hex_val (hex_digit a) = a.
Proof.
  intros H. destruct a as [|p]; [reflexivity|].
  do 4 (destruct p as [p|p|]; try reflexivity); lia.
Qed.

Lemma string_snoc_inj (s1 s2 : string) (a b : ascii) :
  s1 +:+ String a "" = s2 +:+ String b "" -> s1 = s2 /\ a = b.
Proof.
  revert s2. induction s1 as [|c s1 IH]; intros [|c2 s2]; simpl.
  - intros [= ->]. done.
  - intros [= -> H]. by destruct s2.
  - intros [= -> H]. by destruct s1.
  - intros [= -> H]. apply IH in H as [-> ->]. done.
Qed.

(** The digits determine the number up to the width printed. *)
Lemma hex_fixed_mod (w : nat) : forall n m : N,
  hex_fixed w n = hex_fixed w m ->
  (n mod 16 ^ N.of_nat w = m mod 16 ^ N.of_nat w)%N.
Proof.
  induction w as [|w IH]; intros n m H.
  - simpl. by rewrite !N.mod_1_r.
  - simpl in H. apply string_snoc_inj in H as [H1 H2].
    apply IH in H1.
    apply (f_equal hex_val) in H2.
    rewrite !hex_val_digit in H2 by (apply N.mod_lt; discriminate).
    rewrite Nat2N.inj_succ, N.pow_succ_r'.
    rewrite !N.Div0.mod_mul_r. congruence.
Qed.

(** Identifiers handed out one after the other print differently. *)
Lemma oid_hex_apart (n k : N) :
  (0 < k < 16 ^ 24)%N -> oid_hex n <> oid_hex (n + k).
Proof.
  intros Hk H. apply hex_fixed_mod in H. change (N.of_nat 24) with 24%N in H.
  set (M := (16 ^ 24)%N) in *.
  assert (HM : (M <> 0)%N) by (subst M; discriminate).
  rewrite N.Div0.add_mod in H by exact HM.
  rewrite (N.mod_small k M) in H by lia.
  pose proof (N.mod_upper_bound n M HM) as Hr.
  set (r := (n mod M)%N) in *.
  destruct (N.lt_ge_cases (r + k) M) as [Hlt|Hge].
  - rewrite N.mod_small in H by exact Hlt. lia.
  - assert (Hm : ((r + k) mod M = r + k - M)%N).
    { symmetry. apply (N.mod_unique _ _ 1); lia. }
    lia.
Qed.

Lemma py_slice_to_length (n : nat) (s : string) :
  (String.length (py_slice_to n s) <= n)%nat.
Proof.
  unfold py_slice_to. revert s.
  induction n as [|n IH]; intros [|c s]; simpl; try lia.
  specialize (IH s). lia.
Qed.

(** ** Running the monad *)

Lemma bind_run {S E A B} (m : M S E A) (f : A -> M S E B) (s : S) :
  (m ≫= f) s = match m s with
               | (inl e, s') => (inl e, s')
               | (inr a, s') => f a s'
               end.
Proof. reflexivity. Qed.

Lemma collection_insert_eq (w : world) c l n f t :
  collection (World (<[c := l]> (colls w)) n f t) c = l.
Proof. unfold collection; simpl. by rewrite lookup_insert_eq. Qed.

Lemma collection_insert_ne (w : world) c c' l n f t : c <> c' ->
  collection (World (<[c := l]> (colls w)) n f t) c' = collection w c'.
Proof. intros H. unfold collection; simpl. by rewrite lookup_insert_ne. Qed.

Lemma count_documents_all {E} (c : string) (w : world) :
  count_documents (E:=E) c ∅ w
  = (inr (Z.of_nat (length (collection w c))), log (OpCount c ∅) w).
Proof. unfold count_documents. by rewrite filter_matches_empty. Qed.

Lemma create_document_run {E} (c : string) (d : doc) (w : world) :
  create_document (E:=E) c d w
  = (inr (oid_hex (next_oid w)),
     World (<[c := collection w c ++ [<["_id" := VOid (next_oid w)]> d]]> (colls w))
           (N.succ (next_oid w)) (list_fault w)
           (trace w ++ [OpInsert c (<["_id" := VOid (next_oid w)]> d)])).
Proof. reflexivity. Qed.

(** Inserting [docs] one after the other appends them, as stored, to their
    collection and leaves the other collections alone. *)
Lemma for_each_create {E} (c : string) (docs : list doc) : forall w : world,
  exists w', for_each (create_document (E:=E) c) docs w
             = (inr (new_ids (next_oid w) docs), w')
    /\ collection w' c = collection w c ++ stored (next_oid w) docs
    /\ (forall c', c <> c' -> collection w' c' = collection w c')
    /\ next_oid w' = (next_oid w + N.of_nat (length docs))%N
    /\ list_fault w' = list_fault w.
Proof.
  induction docs as [|d docs IH]; intros w.
  - exists w. simpl. rewrite app_nil_r, N.add_0_r. done.
  - cbn [for_each]. rewrite bind_run, create_document_run.
    set (w1 := World _ _ _ _).
    destruct (IH w1) as (w' & Hrun & Hc & Hother & Hn & Hf).
    exists w'. rewrite bind_run, Hrun.
    unfold new_ids, stored in *. rewrite !imap_cons. simpl next_oid in *.
    rewrite N.add_0_r.
    assert (Hext : forall i, (N.succ (next_oid w) + N.of_nat i
                              = next_oid w + N.of_nat (S i))%N) by lia.
    split; [|split; [|split; [|split]]].
    + unfold mret, M_ret. do 3 f_equal. apply imap_ext. intros i x _. simpl.
      by rewrite Hext.
    + rewrite Hc. subst w1. rewrite collection_insert_eq, <- app_assoc. simpl.
      do 2 f_equal. apply imap_ext. intros i x _. simpl. by rewrite Hext.
    + intros c' Hne. rewrite Hother by done. subst w1.
      by rewrite collection_insert_ne.
    + rewrite Hn. simpl length. lia.
    + rewrite Hf. reflexivity.
Qed.

(** ** The listing *)

Section listing.
Context `{L : PyLib}.

Lemma tutor_view_run (t : doc) (w : world) :
  tutor_view t w
  = (TutorOut_init (py_str (py_get t "_id"))
       (py_get t "name") (py_get_default t "subjects" (VList []))
       (py_get t "bio") (py_get t "location") (py_get t "photo_url")
       (py_get t "rating")
       (shape_availability <$>
          List.filter (matches (tutor_filter t)) (collection w "availability")),
     log (OpFind "availability" (tutor_filter t)) w).
Proof. reflexivity. Qed.

(** Building a view reads the store and changes no collection. *)
Lemma tutor_view_colls (t : doc) (w : world) :
  colls (tutor_view t w).2 = colls w.
Proof. reflexivity. Qed.

Lemma tutor_view_stable (t : doc) (w w2 : world) :
  colls w = colls w2 -> (tutor_view t w).1 = (tutor_view t w2).1.
Proof.
  intros H. rewrite !tutor_view_run. simpl. unfold collection. by rewrite H.
Qed.

Lemma TutorOut_init_inr id nm sb bi lo ph ra av v :
  TutorOut_init id nm sb bi lo ph ra av = inr v ->
  TutorOut.id v = id /\ TutorOut.availabilities v = av
  /\ validate_str nm = Some (TutorOut.name v)
  /\ validate_list_str sb = Some (TutorOut.subjects v)
  /\ validate_optional validate_str bi = Some (TutorOut.bio v)
  /\ validate_optional validate_str lo = Some (TutorOut.location v)
  /\ validate_optional validate_str ph = Some (TutorOut.photo_url v)
  /\ validate_optional validate_float ra = Some (TutorOut.rating v).
Proof.
  unfold TutorOut_init.
  destruct (validate_str nm), (validate_list_str sb),
    (validate_optional validate_str bi), (validate_optional validate_str lo),
    (validate_optional validate_str ph), (validate_optional validate_float ra);
    intros [= <-]; simpl; auto 10.
Qed.

Lemma TutorOut_init_inl id nm sb bi lo ph ra av e :
  TutorOut_init id nm sb bi lo ph ra av = inl e ->
  exists fields, e = ValidationError "TutorOut" fields.
Proof.
  unfold TutorOut_init.
  destruct (validate_str nm), (validate_list_str sb),
    (validate_optional validate_str bi), (validate_optional validate_str lo),
    (validate_optional validate_str ph), (validate_optional validate_float ra);
    intros [= <-]; eauto.
Qed.

(** What a view that was built holds. *)
Lemma tutor_view_inr (t : doc) (w : world) (v : TutorOut.t) :
  (tutor_view t w).1 = inr v ->
  TutorOut.id v = py_str (py_get t "_id")
  /\ TutorOut.availabilities v
     = shape_availability <$>
         List.filter
           (fun a => bool_decide
                       (a !! "tutor_id" = Some (VStr (py_str (py_get t "_id")))))
           (collection w "availability")
  /\ validate_str (py_get t "name") = Some (TutorOut.name v)
  /\ validate_list_str (py_get_default t "subjects" (VList []))
     = Some (TutorOut.subjects v)
  /\ validate_optional validate_str (py_get t "bio") = Some (TutorOut.bio v)
  /\ validate_optional validate_str (py_get t "location")
     = Some (TutorOut.location v)
  /\ validate_optional validate_str (py_get t "photo_url")
     = Some (TutorOut.photo_url v)
  /\ validate_optional validate_float (py_get t "rating")
     = Some (TutorOut.rating v).
Proof.
  rewrite tutor_view_run. simpl. intros H.
  apply TutorOut_init_inr in H as (Hid & Hav & H).
  split; [exact Hid|]. split; [|exact H].
  rewrite Hav. f_equal. apply List.filter_ext. intros a.
  apply matches_singleton.
Qed.

Lemma for_each_tutor_view_inr (l : list doc) : forall w views w',
  for_each tutor_view l w = (inr views, w') ->
  Forall2 (fun t v => (tutor_view t w).1 = inr v) l views /\ colls w' = colls w.
Proof.
  induction l as [|t l IH]; intros w views w'.
  - intros [= <- <-]. split; [constructor | reflexivity].
  - cbn [for_each]. rewrite bind_run.
    destruct (tutor_view t w) as [[e|v] w1] eqn:Ht; [discriminate|].
    rewrite bind_run.
    destruct (for_each tutor_view l w1) as [[e|vs] w2] eqn:Hl; [discriminate|].
    intros [= <- <-].
    assert (Hc : colls w1 = colls w).
    { change w1 with (inr (A:=exn) v, w1).2. rewrite <- Ht.
      apply tutor_view_colls. }
    apply IH in Hl as [Hl Hc2]. split; [|congruence].
    constructor.
    + by rewrite Ht.
    + eapply Forall2_impl; [exact Hl|]. intros t' v' <-.
      by apply tutor_view_stable.
Qed.

Lemma for_each_tutor_view_total (l : list doc) : forall w w0,
  colls w = colls w0 ->
  Forall (fun t => exists v, (tutor_view t w0).1 = inr v) l ->
  exists views w', for_each tutor_view l w = (inr views, w').
Proof.
  induction l as [|t l IH]; intros w w0 Hc Hall.
  - by eexists _, _.
  - apply Forall_cons in Hall as [[v Hv] Hall].
    rewrite <- (tutor_view_stable t w w0 Hc) in Hv.
    cbn [for_each]. rewrite bind_run.
    destruct (tutor_view t w) as [r w1] eqn:Ht. simpl in Hv. subst r.
    assert (Hc1 : colls w1 = colls w0).
    { change w1 with (inr (A:=exn) v, w1).2.
      rewrite <- Ht, tutor_view_colls. exact Hc. }
    destruct (IH w1 w0 Hc1 Hall) as (vs & w2 & Hl).
    rewrite bind_run, Hl. by eexists _, _.
Qed.

Lemma for_each_tutor_view_inl (l : list doc) : forall w w0,
  colls w = colls w0 ->
  Exists (fun t => exists e, (tutor_view t w0).1 = inl e) l ->
  exists fields w', for_each tutor_view l w
                    = (inl (ValidationError "TutorOut" fields), w').
Proof.
  induction l as [|t l IH]; intros w w0 Hc Hex.
  - by apply Exists_nil in Hex.
  - cbn [for_each]. rewrite bind_run.
    destruct (tutor_view t w) as [[e|v] w1] eqn:Ht.
    + rewrite tutor_view_run in Ht. injection Ht as Ht _.
      apply TutorOut_init_inl in Ht as [fields ->]. by eexists _, _.
    + assert (Hc1 : colls w1 = colls w0).
      { change w1 with (inr (A:=exn) v, w1).2.
        rewrite <- Ht, tutor_view_colls. exact Hc. }
      apply Exists_cons in Hex as [[e He]|Hex].
      * rewrite <- (tutor_view_stable t w w0 Hc), Ht in He. discriminate.
      * destruct (IH w1 w0 Hc1 Hex) as (fields & w2 & Hl).
        rewrite bind_run, Hl. by eexists _, _.
Qed.

Lemma list_tutors_run (d : Database.t) (w : world) :
  list_tutors (Some d) w
  = for_each tutor_view (collection w "tutor") (log (OpFind "tutor" ∅) w).
Proof.
  unfold list_tutors, get_documents, find. rewrite bind_run.
  by rewrite filter_matches_empty.
Qed.

(** A listing that returns holds one view for each tutor document, in the
    store's order. *)
Lemma list_tutors_inr (db : option Database.t) (w w' : world) views :
  list_tutors db w = (inr views, w') ->
  Forall2 (fun t v => (tutor_view t w).1 = inr v) (collection w "tutor") views.
Proof.
  destruct db as [d|]; [|discriminate]. rewrite list_tutors_run. intros H.
  apply for_each_tutor_view_inr in H as [H _].
  eapply Forall2_impl; [exact H|]. intros t v <-.
  by apply tutor_view_stable.
Qed.

(** *** Shaping an availability record *)

Lemma shape_availability_id (a : doc) :
  shape_availability a !! "id" = Some (VStr (py_str (py_get a "_id"))).
Proof.
  unfold shape_availability, py_pop.
  rewrite lookup_delete_ne by done. apply lookup_insert_eq.
Qed.

Lemma shape_availability_internal (a : doc) : shape_availability a !! "_id" = None.
Proof. unfold shape_availability, py_pop. apply lookup_delete_eq. Qed.

Lemma shape_availability_other (a : doc) (k : string) :
  k <> "id" -> k <> "_id" -> shape_availability a !! k = a !! k.
Proof.
  intros H1 H2. unfold shape_availability, py_pop.
  rewrite lookup_delete_ne by done. by rewrite lookup_insert_ne.
Qed.

(** *** Validation of well-typed documents *)

Lemma validate_strs (l : list value) :
  forallb is_str l = true -> exists ss, mapM validate_str l = Some ss.
Proof.
  induction l as [|x l IH]; simpl; [by eexists|].
  intros [Hx Hl]%andb_true_iff. destruct (IH Hl) as [ss Hss].
  destruct x; try discriminate. simpl. rewrite Hss. by eexists.
Qed.

Lemma optional_str_valid (o : option value) :
  optional_str o = true ->
  exists b, validate_optional validate_str (default VNull o) = Some b.
Proof. destruct o as [[]|]; simpl; try discriminate; eauto. Qed.

Lemma well_typed_view (t : doc) (w : world) :
  well_typed t = true -> exists v, (tutor_view t w).1 = inr v.
Proof.
  unfold well_typed. rewrite !andb_true_iff.
  intros [[[[[Hn Hs] Hb] Hl] Hp] Hr].
  rewrite tutor_view_run. simpl. unfold TutorOut_init, py_get, py_get_default.
  destruct (t !! "name") as [[| n | | | |]|]; try discriminate. simpl.
  assert (Hs' : exists ss,
             validate_list_str (default (VList []) (t !! "subjects")) = Some ss).
  { destruct (t !! "subjects") as [[| | | | l |]|]; try discriminate.
    - simpl. by apply validate_strs.
    - by exists []. }
  destruct Hs' as [ss ->].
  destruct (optional_str_valid _ Hb) as [b ->].
  destruct (optional_str_valid _ Hl) as [l ->].
  destruct (optional_str_valid _ Hp) as [p ->].
  assert (Hr' : exists r,
             validate_optional validate_float (default VNull (t !! "rating"))
             = Some r).
  { destruct (t !! "rating") as [[]|]; simpl; try discriminate; eauto. }
  destruct Hr' as [r ->]. by eexists.
Qed.

(** *** The claims on the listing *)

(** C1 (join correctness). For every store state, a listing that returns holds
    one view per tutor document of the store, in the store's order; the view
    of a document [t] carries the string form of [t]'s identifier and,
    shaped, exactly the availability documents whose [tutor_id] field equals
    that string, in the store's order. *)
Theorem list_tutors_join (db : option Database.t) (w w' : world) views :
  list_tutors db w = (inr views, w') ->
  Forall2
    (fun t v =>
       TutorOut.id v = py_str (py_get t "_id")
       /\ TutorOut.availabilities v
          = shape_availability <$>
              List.filter
                (fun a => bool_decide
                            (a !! "tutor_id"
                             = Some (VStr (py_str (py_get t "_id")))))
                (collection w "availability"))
    (collection w "tutor") views.
Proof.
  intros H. apply list_tutors_inr in H.
  eapply Forall2_impl; [exact H|]. intros t v Hv.
  apply tutor_view_inr in Hv. tauto.
Qed.

(** C8 (shaped availability records). Every availability record of a view
    returned by the listing is a stored availability document [a] in which
    [id] holds the string form of [a]'s [_id], [_id] is gone, and every other
    field is as stored. *)
Theorem availability_records_shaped (db : option Database.t) (w w' : world) views :
  list_tutors db w = (inr views, w') ->
  Forall
    (fun v =>
       Forall
         (fun r => exists a,
              a ∈ collection w "availability"
              /\ r = shape_availability a
              /\ r !! "id" = Some (VStr (py_str (py_get a "_id")))
              /\ r !! "_id" = None
              /\ forall k, k <> "id" -> k <> "_id" -> r !! k = a !! k)
         (TutorOut.availabilities v))
    views.
Proof.
  intros H. apply list_tutors_inr in H.
  induction H as [|t v ts vs Hv _ IH]; constructor; [|exact IH].
  apply tutor_view_inr in Hv as (_ & -> & _).
  apply Forall_forall. intros r Hr.
  apply list_elem_of_fmap in Hr as (a & -> & Ha).
  apply list_elem_of_In, filter_In in Ha as [Ha _].
  exists a. split; [by apply list_elem_of_In|].
  split; [reflexivity|].
  split; [apply shape_availability_id|].
  split; [apply shape_availability_internal|].
  intros k. apply shape_availability_other.
Qed.

(** C3, as the code has it. A tutor document without a [name] field is
    rejected: building its view raises the validation error of [TutorOut]
    with [name] among the failed fields, and the listing of a store that
    holds such a document raises a validation error (HTTP 500) and returns
    no view. *)
Theorem list_tutors_rejects_missing_name (d : Database.t) (w : world) (t : doc) :
  t ∈ collection w "tutor" ->
  t !! "name" = None ->
  (exists fields,
      (tutor_view t w).1 = inl (ValidationError "TutorOut" fields)
      /\ "name" ∈ fields)
  /\ exists fields w',
      list_tutors (Some d) w = (inl (ValidationError "TutorOut" fields), w')
      /\ http_status exn_status (list_tutors (Some d) w).1 = 500.
Proof.
  intros Hin Hname.
  assert (Hview : exists fields,
             (tutor_view t w).1 = inl (ValidationError "TutorOut" fields)
             /\ "name" ∈ fields).
  { rewrite tutor_view_run. simpl. unfold TutorOut_init, py_get.
    rewrite Hname. simpl. eexists. split; [reflexivity|]. apply list_elem_of_here. }
  split; [exact Hview|].
  destruct Hview as (fields & Hview & _).
  destruct (for_each_tutor_view_inl (collection w "tutor")
              (log (OpFind "tutor" ∅) w) w eq_refl) as (fs & w' & Hrun).
  { apply Exists_exists. exists t. split; [exact Hin | by eexists]. }
  exists fs, w'. rewrite list_tutors_run, Hrun. done.
Qed.

(** C7, as the code has it. In a store whose tutor documents are all
    well typed the listing returns one view per tutor document; there the
    view of a document without [subjects] has [subjects = []], the view of
    a document that no availability document refers to has
    [availabilities = []], and each of [bio], [location], [photo_url] and
    [rating] that the document lacks is null in its view. *)
Theorem list_tutors_defaults (d : Database.t) (w : world) :
  Forall (fun t => well_typed t = true) (collection w "tutor") ->
  exists views w',
    list_tutors (Some d) w = (inr views, w')
    /\ Forall2
         (fun t v =>
            (t !! "subjects" = None -> TutorOut.subjects v = [])
            /\ (Forall (fun a => a !! "tutor_id"
                                 <> Some (VStr (py_str (py_get t "_id"))))
                  (collection w "availability") ->
                TutorOut.availabilities v = [])
            /\ (t !! "bio" = None -> TutorOut.bio v = None)
            /\ (t !! "location" = None -> TutorOut.location v = None)
            /\ (t !! "photo_url" = None -> TutorOut.photo_url v = None)
            /\ (t !! "rating" = None -> TutorOut.rating v = None))
         (collection w "tutor") views.
Proof.
  intros Hall.
  destruct (for_each_tutor_view_total (collection w "tutor")
              (log (OpFind "tutor" ∅) w) w eq_refl) as (views & w' & Hrun).
  { eapply Forall_impl; [exact Hall|]. intros t Ht. by apply well_typed_view. }
  exists views, w'. rewrite list_tutors_run. split; [exact Hrun|].
  apply for_each_tutor_view_inr in Hrun as [Hrun _].
  eapply Forall2_impl; [exact Hrun|]. intros t v Hv.
  assert (Hv' : (tutor_view t w).1 = inr v).
  { rewrite <- Hv. by apply tutor_view_stable. }
  apply tutor_view_inr in Hv' as (_ & Hav & _ & Hs & Hb & Hl & Hp & Hr).
  unfold py_get, py_get_default in *.
  split; [|split; [|split; [|split; [|split]]]].
  - intros E. rewrite E in Hs.
    change (Some [] = Some (TutorOut.subjects v)) in Hs. congruence.
  - intros Hno. rewrite Hav, filter_none by exact Hno. reflexivity.
  - intros E. rewrite E in Hb. simpl in Hb. congruence.
  - intros E. rewrite E in Hl. simpl in Hl. congruence.
  - intros E. rewrite E in Hp. simpl in Hp. congruence.
  - intros E. rewrite E in Hr. simpl in Hr. congruence.
Qed.

End listing.

(** *** The claims on the listing, on the sample stores *)

Lemma list_tutors_join_demo :
  @list_tutors strict_lib (Some demo_db) demo_store
  = (inr demo_views, demo_listing.2)
  /\ Forall2
       (fun t v =>
          TutorOut.id v = @py_str strict_lib (py_get t "_id")
          /\ TutorOut.availabilities v
             = @shape_availability strict_lib <$>
                 List.filter
                   (fun a => bool_decide
                               (a !! "tutor_id"
                                = Some (VStr (@py_str strict_lib (py_get t "_id")))))
                   (collection demo_store "availability"))
       (collection demo_store "tutor") demo_views.
Proof.
  split; [vm_compute; reflexivity|].
  apply (@list_tutors_join strict_lib (Some demo_db) demo_store demo_listing.2).
  vm_compute; reflexivity.
Defined.

Lemma availability_records_shaped_demo :
  length (concat (TutorOut.availabilities <$> demo_views)) = 2%nat
  /\ Forall
       (fun v =>
          Forall
            (fun r => exists a,
                 a ∈ collection demo_store "availability"
                 /\ r = @shape_availability strict_lib a
                 /\ r !! "id" = Some (VStr (@py_str strict_lib (py_get a "_id")))
                 /\ r !! "_id" = None
                 /\ forall k, k <> "id" -> k <> "_id" -> r !! k = a !! k)
            (TutorOut.availabilities v))
       demo_views.
Proof.
  split; [vm_compute; reflexivity|].
  apply (@availability_records_shaped strict_lib (Some demo_db) demo_store
           demo_listing.2).
  vm_compute; reflexivity.
Defined.

(** C3, as stated, fails: the one tutor document of [nameless_store] has no
    [name] field, and the listing raises instead of returning a view whose
    [name] is null. *)
Lemma list_tutors_nameless_raises :
  (exists t, collection nameless_store "tutor" = [t] /\ t !! "name" = None)
  /\ (@list_tutors strict_lib (Some demo_db) nameless_store).1
     = inl (ValidationError "TutorOut" ["name"]).
Proof.
  split; [eexists; split; [reflexivity | vm_compute; reflexivity]|].
  vm_compute; reflexivity.
Qed.

Lemma list_tutors_rejects_missing_name_nameless :
  exists t,
    collection nameless_store "tutor" = [t]
    /\ t !! "name" = None
    /\ (exists fields,
           (@tutor_view strict_lib t nameless_store).1
           = inl (ValidationError "TutorOut" fields)
           /\ "name" ∈ fields)
    /\ exists fields w',
        @list_tutors strict_lib (Some demo_db) nameless_store
        = (inl (ValidationError "TutorOut" fields), w')
        /\ http_status exn_status
             (@list_tutors strict_lib (Some demo_db) nameless_store).1 = 500.
Proof.
  eexists. split; [reflexivity|]. split; [vm_compute; reflexivity|].
  apply (@list_tutors_rejects_missing_name strict_lib demo_db nameless_store).
  - apply list_elem_of_here.
  - vm_compute; reflexivity.
Defined.

(** C7, as stated, fails: the tutor document of [bare_store] has no
    [subjects] field and no availability, and the listing raises instead of
    returning a view with [subjects = []]. *)
Lemma list_tutors_bare_raises :
  (exists t, collection bare_store "tutor" = [t] /\ t !! "subjects" = None)
  /\ collection bare_store "availability" = []
  /\ (@list_tutors strict_lib (Some demo_db) bare_store).1
     = inl (ValidationError "TutorOut" ["name"]).
Proof.
  split; [eexists; split; [reflexivity | vm_compute; reflexivity]|].
  split; vm_compute; reflexivity.
Qed.

Lemma list_tutors_defaults_demo :
  Forall (fun t => well_typed t = true) (collection demo_store "tutor")
  /\ exists views w',
      @list_tutors strict_lib (Some demo_db) demo_store = (inr views, w')
      /\ Forall2
           (fun t v =>
              (t !! "subjects" = None -> TutorOut.subjects v = [])
              /\ (Forall (fun a => a !! "tutor_id"
                                   <> Some (VStr (@py_str strict_lib (py_get t "_id"))))
                    (collection demo_store "availability") ->
                  TutorOut.availabilities v = [])
              /\ (t !! "bio" = None -> TutorOut.bio v = None)
              /\ (t !! "location" = None -> TutorOut.location v = None)
              /\ (t !! "photo_url" = None -> TutorOut.photo_url v = None)
              /\ (t !! "rating" = None -> TutorOut.rating v = None))
           (collection demo_store "tutor") views.
Proof.
  assert (H : Forall (fun t => well_typed t = true)
                (collection demo_store "tutor")).
  { repeat constructor. }
  split; [exact H|].
  apply (@list_tutors_defaults strict_lib demo_db demo_store H).
Defined.

(** ** The seed *)

(** The name and the rating of a tutor document, and the dates of the
    availability documents of [w] that refer to it. *)
Definition tutor_summary `{PyLib} (w : world) (t : doc)
  : option value * option value * list (option value) :=
  (t !! "name", t !! "rating",
   (fun a => a !! "date") <$>
     List.filter
       (fun a => bool_decide
                   (a !! "tutor_id" = Some (VStr (py_str (py_get t "_id")))))
       (collection w "availability")).

Lemma date_add_run {S} (d k : Z) (s : S) :
  date_min <= d + k <= date_max -> date_add d k s = (inr (d + k), s).
Proof.
  intros [H1 H2]. unfold date_add.
  apply Z.leb_le in H1, H2. rewrite H1, H2. reflexivity.
Qed.

Lemma py_index_run {S A} (l : list A) (i : nat) (x : A) (s : S) :
  l !! i = Some x -> py_index l i s = (inr x, s).
Proof. intros H. unfold py_index. by rewrite H. Qed.

(** For a date at least five days before [date_max] the five slots are
    built. *)
Lemma seed_slots_run {S} (id0 id1 id2 : string) (today : Z) (s : S) :
  date_min <= today ->
  today + 5 <= date_max ->
  seed_slots [id0; id1; id2] today s = (inr (slots_for id0 id1 id2 today), s).
Proof.
  intros Hmin Hmax. unfold date_min in Hmin. unfold seed_slots.
  repeat (rewrite bind_run;
          first [ rewrite date_add_run by (unfold date_min; lia)
                | erewrite py_index_run by reflexivity ];
          cbv beta iota).
  reflexivity.
Qed.

(** Building the slots leaves the state alone, whether it returns or
    raises. *)
Lemma bind_state {S E A B} (m : M S E A) (f : A -> M S E B) :
  (forall s, (m s).2 = s) -> (forall a s, (f a s).2 = s) ->
  forall s, ((m ≫= f) s).2 = s.
Proof.
  intros Hm Hf s. rewrite bind_run. specialize (Hm s).
  destruct (m s) as [[e|a] s']; simpl in Hm; subst s'; [reflexivity | apply Hf].
Qed.

Lemma py_index_state {S A} (l : list A) (i : nat) (s : S) :
  (py_index l i s).2 = s.
Proof. unfold py_index. by destruct (l !! i). Qed.

Lemma date_add_state {S} (d k : Z) (s : S) : (date_add d k s).2 = s.
Proof. unfold date_add. by destruct (_ && _). Qed.

Lemma seed_slots_state {S} (tutor_ids : list string) (today : Z) (s : S) :
  (seed_slots tutor_ids today s).2 = s.
Proof.
  revert s. unfold seed_slots.
  repeat (apply bind_state;
          [first [ apply py_index_state | apply date_add_state ] | intros ?]).
  reflexivity.
Qed.

Lemma new_ids_seed_tutors (n : N) :
  new_ids n seed_tutors = [oid_hex n; oid_hex (n + 1); oid_hex (n + 2)].
Proof. unfold new_ids, seed_tutors. simpl. by rewrite N.add_0_r. Qed.

(** The guard branch: one count, nothing else. *)
Lemma seed_run_existing (d : Database.t) (today : Z) (w : world) :
  collection w "tutor" <> [] ->
  seed_sample_data (Some d) today w
  = (inr (exists_response (Z.of_nat (length (collection w "tutor")))),
     log (OpCount "tutor" ∅) w).
Proof.
  intros Hne. unfold seed_sample_data.
  rewrite bind_run, count_documents_all.
  destruct (collection w "tutor") as [|t l]; [done|]. reflexivity.
Qed.

(** The other branch: the tutors, then the slots, are appended. *)
Lemma seed_run_fresh (d : Database.t) (today : Z) (w : world) :
  date_min <= today ->
  today + 5 <= date_max ->
  collection w "tutor" = [] ->
  exists w',
    seed_sample_data (Some d) today w = (inr seeded_response, w')
    /\ collection w' "tutor" = stored (next_oid w) seed_tutors
    /\ collection w' "availability"
       = collection w "availability"
         ++ stored (next_oid w + 3)
              (slots_for (oid_hex (next_oid w)) (oid_hex (next_oid w + 1))
                 (oid_hex (next_oid w + 2)) today)
    /\ list_fault w' = list_fault w.
Proof.
  intros Hmin Hmax Hempty. unfold seed_sample_data.
  rewrite bind_run, count_documents_all.
  assert (Hlog : forall o c, collection (log o w) c = collection w c)
    by reflexivity.
  rewrite Hempty. change (0 <? Z.of_nat (length (@nil doc))) with false.
  cbv iota.
  destruct (for_each_create (E:=exn) "tutor" seed_tutors
              (log (OpCount "tutor" ∅) w))
    as (w1 & Hrun1 & Hc1 & Ho1 & Hn1 & Hf1).
  rewrite bind_run, Hrun1.
  change (next_oid (log (OpCount "tutor" ∅) w)) with (next_oid w) in *.
  set (n := next_oid w) in *.
  rewrite new_ids_seed_tutors, bind_run, seed_slots_run by assumption.
  destruct (for_each_create (E:=exn) "availability"
              (slots_for (oid_hex n) (oid_hex (n + 1)) (oid_hex (n + 2)) today)
              w1)
    as (w2 & Hrun2 & Hc2 & Ho2 & Hn2 & Hf2).
  rewrite bind_run, Hrun2.
  exists w2. split; [reflexivity|]. split; [|split].
  - rewrite Ho2 by done. rewrite Hc1, Hlog, Hempty. reflexivity.
  - rewrite Hc2, Ho1 by done. rewrite Hlog, Hn1. reflexivity.
  - rewrite Hf2, Hf1. reflexivity.
Qed.

Lemma stored_length (n : N) (docs : list doc) :
  length (stored n docs) = length docs.
Proof. apply length_imap. Qed.

(** *** Reading seeded documents *)

Lemma Tutor_stored_name v nm sb bi lo ph ra :
  (<["_id" := v]> (Tutor nm sb bi lo ph ra)) !! "name" = Some (VStr nm).
Proof. rewrite lookup_insert_ne by done. reflexivity. Qed.

Lemma Tutor_stored_rating v nm sb bi lo ph ra :
  (<["_id" := v]> (Tutor nm sb bi lo ph ra)) !! "rating"
  = Some (opt_value ra VFloat).
Proof. rewrite lookup_insert_ne by done. reflexivity. Qed.

Lemma Availability_stored_tutor_id v tid dt tm lo nt :
  (<["_id" := v]> (Availability tid dt tm lo nt)) !! "tutor_id"
  = Some (VStr tid).
Proof. rewrite lookup_insert_ne by done. reflexivity. Qed.

Lemma Availability_stored_date v tid dt tm lo nt :
  (<["_id" := v]> (Availability tid dt tm lo nt)) !! "date" = Some (VStr dt).
Proof. rewrite lookup_insert_ne by done. reflexivity. Qed.

Lemma stored_py_str `{PyLib} (n : N) (d : doc) :
  py_str (py_get (<["_id" := VOid n]> d) "_id") = oid_hex n.
Proof. unfold py_get. by rewrite lookup_insert_eq. Qed.

Lemma refers_to_eq (a : doc) (s t : string) :
  a !! "tutor_id" = Some (VStr s) ->
  bool_decide (a !! "tutor_id" = Some (VStr t)) = bool_decide (s = t).
Proof.
  intros ->. apply bool_decide_ext. split; congruence.
Qed.

Lemma stored_slots (m : N) (a0 a1 a2 a3 a4 : doc) :
  stored m [a0; a1; a2; a3; a4]
  = [ <["_id" := VOid (m + 0)]> a0; <["_id" := VOid (m + 1)]> a1;
      <["_id" := VOid (m + 2)]> a2; <["_id" := VOid (m + 3)]> a3;
      <["_id" := VOid (m + 4)]> a4 ].
Proof. reflexivity. Qed.

Lemma stored_three (n : N) (a0 a1 a2 : doc) :
  stored n [a0; a1; a2]
  = [ <["_id" := VOid (n + 0)]> a0; <["_id" := VOid (n + 1)]> a1;
      <["_id" := VOid (n + 2)]> a2 ].
Proof. reflexivity. Qed.

(** The dates of the seeded slots that refer to [tid], in the store's order. *)
Lemma slots_for_dates (id0 id1 id2 tid : string) (today : Z) (m : N) :
  (fun a : doc => a !! "date") <$>
    List.filter (fun a => bool_decide (a !! "tutor_id" = Some (VStr tid)))
      (stored m (slots_for id0 id1 id2 today))
  = (if bool_decide (id0 = tid)
     then [Some (VStr (date_str (today + 1))); Some (VStr (date_str (today + 3)))]
     else [])
    ++ (if bool_decide (id1 = tid)
        then [Some (VStr (date_str (today + 2)));
              Some (VStr (date_str (today + 5)))]
        else [])
    ++ (if bool_decide (id2 = tid)
        then [Some (VStr (date_str (today + 1)))]
        else []).
Proof.
  unfold slots_for. rewrite stored_slots. cbn [List.filter].
  rewrite !(refers_to_eq _ _ tid (Availability_stored_tutor_id _ _ _ _ _ _)).
  destruct (bool_decide (id0 = tid)), (bool_decide (id1 = tid)),
    (bool_decide (id2 = tid)); cbn [fmap list_fmap app];
    rewrite ?Availability_stored_date; reflexivity.
Qed.

Lemma seeded_ids_apart (n : N) :
  oid_hex n <> oid_hex (n + 1) /\ oid_hex n <> oid_hex (n + 2)
  /\ oid_hex (n + 1) <> oid_hex (n + 2).
Proof.
  split; [|split].
  - apply oid_hex_apart. lia.
  - apply oid_hex_apart. lia.
  - replace (n + 2)%N with (n + 1 + 1)%N by lia. apply oid_hex_apart. lia.
Qed.

(** *** The claims on the seed *)

(** C4 (seed literal content). A seed call at a date [today] at least five
    days before [date_max] (so that the call succeeds), on a store whose
    tutor and availability collections are empty, returns
    [{message: "Seeded sample tutors and availability", tutors: 3, slots: 5}]
    and leaves exactly three tutor documents, named Alex Chen, Priya Sharma
    and Miguel Alvarez with ratings 4.8, 4.9 and 4.7, and exactly five
    availability documents: those that refer to the three tutors are dated
    [today] plus 1 and 3 days, plus 2 and 5 days, and plus 1 day. *)
Theorem seed_first_call `{PyLib} (d : Database.t) (today : Z) (w : world) :
  date_min <= today ->
  today + 5 <= date_max ->
  collection w "tutor" = [] ->
  collection w "availability" = [] ->
  exists w',
    seed_sample_data (Some d) today w = (inr seeded_response, w')
    /\ tutor_summary w' <$> collection w' "tutor"
       = [ (Some (VStr "Alex Chen"), Some (VFloat "4.8"),
            [Some (VStr (date_str (today + 1)));
             Some (VStr (date_str (today + 3)))]);
           (Some (VStr "Priya Sharma"), Some (VFloat "4.9"),
            [Some (VStr (date_str (today + 2)));
             Some (VStr (date_str (today + 5)))]);
           (Some (VStr "Miguel Alvarez"), Some (VFloat "4.7"),
            [Some (VStr (date_str (today + 1)))]) ]
    /\ length (collection w' "availability") = 5%nat.
Proof.
  intros Hmin Hmax Ht Ha.
  destruct (seed_run_fresh d today w Hmin Hmax Ht)
    as (w' & Hrun & Hct & Hca & _).
  rewrite Ha in Hca. cbn [app] in Hca.
  exists w'. split; [exact Hrun|]. split.
  - rewrite Hct. unfold seed_tutors. rewrite stored_three.
    cbn [fmap list_fmap]. unfold tutor_summary.
    rewrite !Tutor_stored_name, !Tutor_stored_rating, !stored_py_str, Hca.
    rewrite !slots_for_dates, N.add_0_r.
    destruct (seeded_ids_apart (next_oid w)) as (H01 & H02 & H12).
    repeat (case_bool_decide; try congruence).
    reflexivity.
  - rewrite Hca, stored_length. reflexivity.
Qed.

Lemma seed_first_call_empty :
  exists w',
    seed_sample_data (Some demo_db) 739924 empty_store
    = (inr seeded_response, w')
    /\ @tutor_summary strict_lib w' <$> collection w' "tutor"
       = [ (Some (VStr "Alex Chen"), Some (VFloat "4.8"),
            [Some (VStr "2026-11-05"); Some (VStr "2026-11-07")]);
           (Some (VStr "Priya Sharma"), Some (VFloat "4.9"),
            [Some (VStr "2026-11-06"); Some (VStr "2026-11-09")]);
           (Some (VStr "Miguel Alvarez"), Some (VFloat "4.7"),
            [Some (VStr "2026-11-05")]) ]
    /\ length (collection w' "availability") = 5%nat.
Proof.
  apply (@seed_first_call strict_lib demo_db 739924 empty_store);
    [unfold date_min; lia | unfold date_max; lia | reflexivity..].
Defined.

(** C2 (seed idempotence). When the tutor collection holds a document, a
    seed call counts the tutors, sends the store nothing else, and returns
    [{message: "Data already exists", tutors: <count>}]. Hence a second
    seed call, at any date, after one at a date at least five days before
    [date_max] on a store with empty tutor and availability collections
    returns that response with [tutors: 3] and leaves three tutor documents
    and five availability documents. *)
Theorem seed_idempotent (d : Database.t) (today : Z) (w : world) :
  ((0 < length (collection w "tutor"))%nat ->
   seed_sample_data (Some d) today w
   = (inr (exists_response (Z.of_nat (length (collection w "tutor")))),
      log (OpCount "tutor" ∅) w))
  /\ (date_min <= today ->
      today + 5 <= date_max ->
      collection w "tutor" = [] ->
      collection w "availability" = [] ->
      forall (d2 : Database.t) (today2 : Z),
      exists w1 w2,
        seed_sample_data (Some d) today w = (inr seeded_response, w1)
        /\ seed_sample_data (Some d2) today2 w1 = (inr (exists_response 3), w2)
        /\ w2 = log (OpCount "tutor" ∅) w1
        /\ length (collection w2 "tutor") = 3%nat
        /\ length (collection w2 "availability") = 5%nat).
Proof.
  split.
  - intros Hpos. apply seed_run_existing. intros E. rewrite E in Hpos.
    simpl in Hpos. lia.
  - intros Hmin Hmax Ht Ha d2 today2.
    destruct (seed_run_fresh d today w Hmin Hmax Ht)
      as (w1 & Hrun & Hct & Hca & _).
    assert (Hlen : length (collection w1 "tutor") = 3%nat).
    { rewrite Hct, stored_length. reflexivity. }
    exists w1, (log (OpCount "tutor" ∅) w1).
    split; [exact Hrun|]. split; [|split; [reflexivity|split]].
    + rewrite seed_run_existing.
      * by rewrite Hlen.
      * intros E. rewrite E in Hlen. discriminate.
    + exact Hlen.
    + change (collection (log (OpCount "tutor" ∅) w1) "availability")
        with (collection w1 "availability").
      rewrite Hca, Ha. cbn [app]. rewrite stored_length. reflexivity.
Qed.

Lemma seed_idempotent_samples :
  seed_sample_data (Some demo_db) 739924 demo_store
  = (inr (exists_response 2), log (OpCount "tutor" ∅) demo_store)
  /\ exists w1 w2,
      seed_sample_data (Some demo_db) 739924 empty_store
      = (inr seeded_response, w1)
      /\ seed_sample_data (Some demo_db) 739925 w1
         = (inr (exists_response 3), w2)
      /\ w2 = log (OpCount "tutor" ∅) w1
      /\ length (collection w2 "tutor") = 3%nat
      /\ length (collection w2 "availability") = 5%nat.
Proof.
  split.
  - apply (proj1 (seed_idempotent demo_db 739924 demo_store)).
    vm_compute. lia.
  - apply (proj2 (seed_idempotent demo_db 739924 empty_store));
      [unfold date_min; lia | unfold date_max; lia | reflexivity..].
Defined.

(** C10 (the guard looks at tutors only). A seed call at a date at least
    five days before [date_max] on a store whose tutor collection is empty
    inserts the three tutors and appends the five slots
    to the availability collection, whatever that collection holds; when it
    held a document, it ends with more than five. *)
Theorem seed_guard_ignores_availability
    (d : Database.t) (today : Z) (w : world) :
  date_min <= today ->
  today + 5 <= date_max ->
  collection w "tutor" = [] ->
  exists w' new,
    seed_sample_data (Some d) today w = (inr seeded_response, w')
    /\ length (collection w' "tutor") = 3%nat
    /\ length new = 5%nat
    /\ collection w' "availability" = collection w "availability" ++ new
    /\ (collection w "availability" <> [] ->
        (5 < length (collection w' "availability"))%nat).
Proof.
  intros Hmin Hmax Ht.
  destruct (seed_run_fresh d today w Hmin Hmax Ht)
    as (w' & Hrun & Hct & Hca & _).
  exists w', (stored (next_oid w + 3)
                (slots_for (oid_hex (next_oid w)) (oid_hex (next_oid w + 1))
                   (oid_hex (next_oid w + 2)) today)).
  split; [exact Hrun|]. split; [by rewrite Hct, stored_length|].
  split; [by rewrite stored_length|]. split; [exact Hca|].
  intros Hne. rewrite Hca, length_app, stored_length.
  destruct (collection w "availability"); [done|]. simpl. lia.
Qed.

Lemma seed_guard_ignores_availability_leftover :
  length (collection leftover_store "availability") = 1%nat
  /\ exists w' new,
      seed_sample_data (Some demo_db) 739924 leftover_store
      = (inr seeded_response, w')
      /\ length (collection w' "tutor") = 3%nat
      /\ length new = 5%nat
      /\ collection w' "availability"
         = collection leftover_store "availability" ++ new
      /\ (collection leftover_store "availability" <> [] ->
          (5 < length (collection w' "availability"))%nat).
Proof.
  split; [reflexivity|].
  apply (seed_guard_ignores_availability demo_db 739924 leftover_store);
    [unfold date_min; lia | unfold date_max; lia | reflexivity..].
Defined.

(** ** The diagnostic and the unavailable store *)

Lemma test_database_returns (db : option Database.t) (env : gmap string string)
    (w : world) :
  exists resp,
    test_database db env w
    = (inr resp, match db with
                 | Some _ => log OpListCollections w
                 | None => w
                 end).
Proof.
  destruct db as [d|]; [destruct w as [c n [msg|] t] |]; eexists; reflexivity.
Qed.

(** The two fields computed from the environment. *)
Lemma test_database_env (db : option Database.t) (env : gmap string string)
    (w : world) :
  response_field "database_url" (test_database db env w)
  = Some (VStr (if getenv_true env "DATABASE_URL"
                then "✅ Set" else "❌ Not Set"))
  /\ response_field "database_name" (test_database db env w)
     = Some (VStr (if getenv_true env "DATABASE_NAME"
                   then "✅ Set" else "❌ Not Set")).
Proof.
  destruct db as [d|]; [destruct w as [c n [msg|] t] |]; split; reflexivity.
Qed.

Lemma test_database_fault (d : Database.t) (env : gmap string string)
    (w : world) (msg : string) :
  list_fault w = Some msg ->
  response_field "database" (test_database (Some d) env w)
  = Some (VStr ("⚠️  Connected but Error: " +:+ py_slice_to 50 msg))
  /\ response_field "connection_status" (test_database (Some d) env w)
     = Some (VStr "Connected")
  /\ response_field "collections" (test_database (Some d) env w)
     = Some (VList []).
Proof.
  destruct w as [c n f t]; simpl; intros ->. repeat split; reflexivity.
Qed.

(** C5 (unavailable store). When [db] is [None], the listing and the seed
    raise [HTTPException(500, "Database not configured")] and leave the
    store as it was, without having sent it any operation; the diagnostic
    returns (HTTP 200), sends the store nothing either, and reports
    [database: "⚠️  Available but not initialized"],
    [connection_status: "Not Connected"] and no collection. *)
Theorem unavailable_store `{PyLib} (today : Z) (env : gmap string string)
    (w : world) :
  list_tutors None w = (inl (HTTPException 500 "Database not configured"), w)
  /\ http_status exn_status (list_tutors None w).1 = 500
  /\ seed_sample_data None today w
     = (inl (HTTPException 500 "Database not configured"), w)
  /\ http_status exn_status (seed_sample_data None today w).1 = 500
  /\ exists resp,
      test_database None env w = (inr resp, w)
      /\ http_status (fun _ : string => 500) (test_database None env w).1 = 200
      /\ resp !! "database" = Some (VStr "⚠️  Available but not initialized")
      /\ resp !! "connection_status" = Some (VStr "Not Connected")
      /\ resp !! "collections" = Some (VList []).
Proof.
  repeat (split; [reflexivity|]).
  eexists. split; [reflexivity|]. repeat split; reflexivity.
Qed.

(** C6 (the diagnostic never fails). For every handle, environment and store
    state the diagnostic returns a response (HTTP 200) and changes no
    collection; when listing the collections raises, the message of the
    exception is cut to its first 50 characters and reported in the
    [database] field. *)
Theorem test_database_never_fails (db : option Database.t)
    (env : gmap string string) (w : world) :
  exists resp w',
    test_database db env w = (inr resp, w')
    /\ http_status (fun _ : string => 500) (test_database db env w).1 = 200
    /\ colls w' = colls w
    /\ forall d msg,
        db = Some d ->
        list_fault w = Some msg ->
        resp !! "database"
        = Some (VStr ("⚠️  Connected but Error: " +:+ py_slice_to 50 msg))
        /\ (String.length (py_slice_to 50 msg) <= 50)%nat.
Proof.
  destruct (test_database_returns db env w) as [resp Hrun].
  eexists resp, _. split; [exact Hrun|]. rewrite Hrun.
  split; [reflexivity|]. split; [by destruct db|].
  intros d msg -> Hmsg. split; [|apply py_slice_to_length].
  destruct (test_database_fault d env w msg Hmsg) as [Hf _].
  unfold response_field in Hf. by rewrite Hrun in Hf.
Qed.

Lemma test_database_never_fails_failing :
  exists resp w',
    test_database (Some demo_db) env_full_url failing_store = (inr resp, w')
    /\ resp !! "database"
       = Some (VStr "⚠️  Connected but Error: localhost:27017: [Errno 111] Connection refused, T")
    /\ colls w' = colls failing_store.
Proof.
  destruct (test_database_never_fails (Some demo_db) env_full_url failing_store)
    as (resp & w' & Hrun & _ & Hc & Hf).
  exists resp, w'. split; [exact Hrun|]. split; [|exact Hc].
  exact (proj1 (Hf demo_db _ eq_refl eq_refl)).
Defined.

(** C9, as stated, fails: in both environments [DATABASE_URL] is set and
    [DATABASE_NAME] has the same value, yet the [database_url] fields
    differ, because one value of [DATABASE_URL] is the empty string. *)
Lemma test_database_empty_url_differs :
  is_Some (env_empty_url !! "DATABASE_URL")
  /\ is_Some (env_full_url !! "DATABASE_URL")
  /\ env_empty_url !! "DATABASE_NAME" = env_full_url !! "DATABASE_NAME"
  /\ response_field "database_url"
       (test_database (Some demo_db) env_empty_url empty_store)
     = Some (VStr "❌ Not Set")
  /\ response_field "database_url"
       (test_database (Some demo_db) env_full_url empty_store)
     = Some (VStr "✅ Set").
Proof.
  split; [by eexists|]. split; [by eexists|]. repeat split; reflexivity.
Qed.

(** C9, as the code has it. The [database_url] and [database_name] fields of
    the diagnostic depend only on whether [DATABASE_URL] and [DATABASE_NAME]
    are set to a non-empty string: two runs that agree on that, whatever
    their handles, stores and the values of the variables, produce
    identical fields. *)
Theorem test_database_env_presence (db1 db2 : option Database.t)
    (env1 env2 : gmap string string) (w1 w2 : world) :
  getenv_true env1 "DATABASE_URL" = getenv_true env2 "DATABASE_URL" ->
  getenv_true env1 "DATABASE_NAME" = getenv_true env2 "DATABASE_NAME" ->
  is_Some (response_field "database_url" (test_database db1 env1 w1))
  /\ is_Some (response_field "database_name" (test_database db1 env1 w1))
  /\ response_field "database_url" (test_database db1 env1 w1)
     = response_field "database_url" (test_database db2 env2 w2)
  /\ response_field "database_name" (test_database db1 env1 w1)
     = response_field "database_name" (test_database db2 env2 w2).
Proof.
  intros Hu Hn.
  destruct (test_database_env db1 env1 w1) as [-> ->].
  destruct (test_database_env db2 env2 w2) as [-> ->].
  rewrite Hu, Hn. repeat split; by eexists.
Qed.

Lemma test_database_env_presence_values :
  env_full_url !! "DATABASE_URL" <> env_other_url !! "DATABASE_URL"
  /\ env_full_url !! "DATABASE_NAME" <> env_other_url !! "DATABASE_NAME"
  /\ response_field "database_url"
       (test_database (Some demo_db) env_full_url demo_store)
     = response_field "database_url" (test_database None env_other_url empty_store)
  /\ response_field "database_name"
       (test_database (Some demo_db) env_full_url demo_store)
     = response_field "database_name"
         (test_database None env_other_url empty_store).
Proof.
  split; [discriminate|]. split; [discriminate|].
  apply (test_database_env_presence (Some demo_db) None env_full_url
           env_other_url demo_store empty_store); reflexivity.
Defined.

(** ** Dates *)

Example date_str_samples :
  map date_str [739924; 738945; 730485; 738885; 738886; 693655; 766703; 1;
                3652059; 739251; 739311]
  = ["2026-11-04"; "2024-02-29"; "2000-12-31"; "2023-12-31"; "2024-01-01";
     "1900-03-01"; "2100-02-28"; "0001-01-01"; "9999-12-31"; "2024-12-31";
     "2025-03-01"].
Proof. reflexivity. Qed.

(** * Further properties of the handlers *)

(** ** Definitions used in the statements *)

(** The fields [TutorOut] rejects among the six validated arguments, in the
    order of their declaration. *)
Definition failed_fields `{PyLib} (nm sb bi lo ph ra : value) : list string :=
  failed "name" (validate_str nm) ++ failed "subjects" (validate_list_str sb)
  ++ failed "bio" (validate_optional validate_str bi)
  ++ failed "location" (validate_optional validate_str lo)
  ++ failed "photo_url" (validate_optional validate_str ph)
  ++ failed "rating" (validate_optional validate_float ra).

(** The keys of the diagnostic's response. *)
Definition test_keys : gset string :=
  {[ "backend"; "database"; "database_url"; "database_name";
     "connection_status"; "collections" ]}.

(** The diagnostic's response before any assignment. *)
Definition initial_response : doc :=
  {[ "backend" := VStr "✅ Running";
     "database" := VStr "❌ Not Available";
     "database_url" := VNull;
     "database_name" := VNull;
     "connection_status" := VStr "Not Connected";
     "collections" := VList [] ]}.

(** A well-typed tutor, then a tutor without [name], then a tutor whose
    [subjects] is null. *)
Definition mixed_store : world :=
  World
    {[ "tutor" :=
         [ {[ "_id" := VOid 1; "name" := VStr "Ada Park" ]};
           {[ "_id" := VOid 2; "subjects" := VList [VStr "Math"] ]};
           {[ "_id" := VOid 3; "name" := VStr "Cy Roe"; "subjects" := VNull ]} ] ]}
    4 None [].

(** A store with twelve collections. *)
Definition crowded_store : world :=
  World
    (list_to_map
       ((fun c => (c, [])) <$>
          ["c01"; "c02"; "c03"; "c04"; "c05"; "c06"; "c07"; "c08"; "c09";
           "c10"; "c11"; "c12"]))
    0 None [].

(** ** More on the listing *)

Section listing_more.
Context `{L : PyLib}.

Lemma for_each_tutor_view_frame (l : list doc) : forall w,
  colls (for_each tutor_view l w).2 = colls w
  /\ next_oid (for_each tutor_view l w).2 = next_oid w
  /\ list_fault (for_each tutor_view l w).2 = list_fault w.
Proof.
  induction l as [|t l IH]; intros w; [done|].
  cbn [for_each]. rewrite bind_run, tutor_view_run.
  destruct (TutorOut_init _ _ _ _ _ _ _ _) as [e|v]; [done|].
  rewrite bind_run.
  specialize (IH (log (OpFind "availability" (tutor_filter t)) w)).
  destruct (for_each tutor_view l _) as [[e|vs] w2]; exact IH.
Qed.

Lemma for_each_tutor_view_result (l : list doc) : forall w w2,
  colls w = colls w2 ->
  (for_each tutor_view l w).1 = (for_each tutor_view l w2).1.
Proof.
  induction l as [|t l IH]; intros w w2 Hc; [done|].
  cbn [for_each]. rewrite !bind_run, !tutor_view_run.
  unfold collection. rewrite Hc.
  destruct (TutorOut_init _ _ _ _ _ _ _ _) as [e|v]; [done|].
  rewrite !bind_run.
  specialize (IH (log (OpFind "availability" (tutor_filter t)) w)
                (log (OpFind "availability" (tutor_filter t)) w2) Hc).
  destruct (for_each tutor_view l (log _ w)) as [[e|vs] w3],
    (for_each tutor_view l (log _ w2)) as [[e2|vs2] w4];
    simpl in IH; try discriminate; by simplify_eq.
Qed.

Lemma for_each_tutor_view_trace (l : list doc) : forall w views w',
  for_each tutor_view l w = (inr views, w') ->
  trace w' = trace w ++ ((fun t => OpFind "availability" (tutor_filter t)) <$> l).
Proof.
  induction l as [|t l IH]; intros w views w'.
  - intros [= <- <-]. simpl. by rewrite app_nil_r.
  - cbn [for_each]. rewrite bind_run, tutor_view_run.
    destruct (TutorOut_init _ _ _ _ _ _ _ _) as [e|v]; [discriminate|].
    rewrite bind_run.
    destruct (for_each tutor_view l _) as [[e|vs] w2] eqn:Hl; [discriminate|].
    intros [= <- <-]. apply IH in Hl. rewrite Hl. simpl.
    by rewrite <- app_assoc.
Qed.

Lemma for_each_tutor_view_first_failure (good rest : list doc) (t : doc)
    (e : exn) : forall w w0,
  colls w = colls w0 ->
  Forall (fun t' => exists v, (tutor_view t' w0).1 = inr v) good ->
  (tutor_view t w0).1 = inl e ->
  (for_each tutor_view (good ++ t :: rest) w).1 = inl e
  /\ trace (for_each tutor_view (good ++ t :: rest) w).2
     = trace w ++ ((fun t => OpFind "availability" (tutor_filter t))
                     <$> (good ++ [t])).
Proof.
  induction good as [|g good IH]; intros w w0 Hc Hgood Ht.
  - cbn [app for_each]. rewrite bind_run.
    rewrite <- (tutor_view_stable t w w0 Hc) in Ht.
    rewrite tutor_view_run in *. simpl in Ht. rewrite Ht. done.
  - apply Forall_cons in Hgood as [[v Hv] Hgood].
    rewrite <- (tutor_view_stable g w w0 Hc) in Hv.
    cbn [app for_each]. rewrite bind_run.
    rewrite tutor_view_run in *. simpl in Hv. rewrite Hv.
    rewrite bind_run.
    destruct (IH (log (OpFind "availability" (tutor_filter g)) w) w0 Hc
                Hgood Ht) as [Hr Htr].
    destruct (for_each tutor_view (good ++ t :: rest) _) as [[e'|vs] w2].
    + simpl in *. split; [exact Hr|]. rewrite Htr. by rewrite <- app_assoc.
    + discriminate.
Qed.

Lemma TutorOut_init_failed id nm sb bi lo ph ra av :
  failed_fields nm sb bi lo ph ra <> [] ->
  TutorOut_init id nm sb bi lo ph ra av
  = inl (ValidationError "TutorOut" (failed_fields nm sb bi lo ph ra)).
Proof.
  unfold TutorOut_init, failed_fields.
  destruct (validate_str nm), (validate_list_str sb),
    (validate_optional validate_str bi), (validate_optional validate_str lo),
    (validate_optional validate_str ph), (validate_optional validate_float ra);
    simpl; intros H; try reflexivity; by destruct H.
Qed.

(** X1 (the listing is read-only). Whether it returns or raises, the listing
    leaves every collection, the next identifier and the store's fault state
    as they were. *)
Theorem list_tutors_read_only (db : option Database.t) (w : world) :
  colls (list_tutors db w).2 = colls w
  /\ next_oid (list_tutors db w).2 = next_oid w
  /\ list_fault (list_tutors db w).2 = list_fault w.
Proof.
  destruct db as [d|]; [|done]. rewrite list_tutors_run.
  apply (for_each_tutor_view_frame _ (log (OpFind "tutor" ∅) w)).
Qed.

(** X2 (one query per tutor). A listing that returns has sent the store one
    [find] on the tutor collection with the empty filter, then one [find] on
    the availability collection per tutor document, in the store's order,
    each with the filter [{"tutor_id": str(_id)}], and nothing else. *)
Theorem list_tutors_queries (db : option Database.t) (w w' : world) views :
  list_tutors db w = (inr views, w') ->
  trace w'
  = trace w
    ++ OpFind "tutor" ∅
       :: ((fun t => OpFind "availability"
                       {[ "tutor_id" := VStr (py_str (py_get t "_id")) ]})
             <$> collection w "tutor").
Proof.
  destruct db as [d|]; [|discriminate]. rewrite list_tutors_run. intros H.
  apply for_each_tutor_view_trace in H. rewrite H. simpl.
  by rewrite <- app_assoc.
Qed.

(** X3 (the first failure decides). When the views of the tutor documents
    [good] build and the view of the next document [t] raises [e], the
    listing raises [e], whatever documents follow; it has queried the
    availabilities of [good] and of [t], and of no later document. *)
Theorem list_tutors_first_failure (d : Database.t) (w : world)
    (good rest : list doc) (t : doc) (e : exn) :
  collection w "tutor" = good ++ t :: rest ->
  Forall (fun t' => exists v, (tutor_view t' w).1 = inr v) good ->
  (tutor_view t w).1 = inl e ->
  (list_tutors (Some d) w).1 = inl e
  /\ trace (list_tutors (Some d) w).2
     = trace w
       ++ OpFind "tutor" ∅
          :: ((fun t => OpFind "availability"
                          {[ "tutor_id" := VStr (py_str (py_get t "_id")) ]})
                <$> (good ++ [t])).
Proof.
  intros Hl Hgood Ht. rewrite list_tutors_run, Hl.
  destruct (for_each_tutor_view_first_failure good rest t e
              (log (OpFind "tutor" ∅) w) w eq_refl Hgood Ht) as [Hr Htr].
  split; [exact Hr|]. rewrite Htr. simpl. by rewrite <- app_assoc.
Qed.

(** X4 (null subjects). The default [[]] of [t.get("subjects", [])] stands
    for an absent field only: a tutor document whose [subjects] field is
    present and null is rejected, with [subjects] among the failed fields,
    and the listing of a store that holds it raises a validation error. *)
Theorem list_tutors_rejects_null_subjects (d : Database.t) (w : world)
    (t : doc) :
  t ∈ collection w "tutor" ->
  t !! "subjects" = Some VNull ->
  (exists fields,
      (tutor_view t w).1 = inl (ValidationError "TutorOut" fields)
      /\ "subjects" ∈ fields)
  /\ exists fields,
      (list_tutors (Some d) w).1 = inl (ValidationError "TutorOut" fields).
Proof.
  intros Hin Hs.
  assert (Hview : exists fields,
             (tutor_view t w).1 = inl (ValidationError "TutorOut" fields)
             /\ "subjects" ∈ fields).
  { rewrite tutor_view_run. cbn [fst].
    assert (Hf : "subjects" ∈ failed_fields (py_get t "name")
                   (py_get_default t "subjects" (VList [])) (py_get t "bio")
                   (py_get t "location") (py_get t "photo_url")
                   (py_get t "rating")).
    { unfold failed_fields, py_get_default. rewrite Hs. simpl.
      apply elem_of_app. right. apply list_elem_of_here. }
    rewrite TutorOut_init_failed.
    - eexists. split; [reflexivity | exact Hf].
    - intros E. rewrite E in Hf. exact (not_elem_of_nil _ Hf). }
  split; [exact Hview|].
  destruct Hview as (fields & Hview & _).
  destruct (for_each_tutor_view_inl (collection w "tutor")
              (log (OpFind "tutor" ∅) w) w eq_refl) as (fs & w' & Hrun).
  { apply Exists_exists. exists t. split; [exact Hin | by eexists]. }
  exists fs. by rewrite list_tutors_run, Hrun.
Qed.

(** X5 (records belong to their view). In every view of a listing that
    returns, each availability record carries the view's own [id] in its
    [tutor_id] field. *)
Theorem availability_records_of_their_tutor (db : option Database.t)
    (w w' : world) views :
  list_tutors db w = (inr views, w') ->
  Forall
    (fun v =>
       Forall (fun r : doc => r !! "tutor_id" = Some (VStr (TutorOut.id v)))
         (TutorOut.availabilities v))
    views.
Proof.
  intros H. apply list_tutors_inr in H.
  induction H as [|t v ts vs Hv _ IH]; constructor; [|exact IH].
  apply tutor_view_inr in Hv as (-> & -> & _).
  apply Forall_forall. intros r Hr.
  apply list_elem_of_fmap in Hr as (a & -> & Ha).
  apply list_elem_of_In, filter_In in Ha as [_ Ha].
  apply bool_decide_eq_true in Ha.
  rewrite shape_availability_other by done. exact Ha.
Qed.

(** X6 (the listing is repeatable). What the listing returns or raises
    depends on the collections only: a second listing, or a listing after a
    diagnostic, has the outcome of the first. *)
Theorem list_tutors_repeatable (db db' : option Database.t)
    (env : gmap string string) (w : world) :
  (list_tutors db (list_tutors db w).2).1 = (list_tutors db w).1
  /\ (list_tutors db (test_database db' env w).2).1 = (list_tutors db w).1.
Proof.
  assert (H : forall w2, colls w2 = colls w ->
                         (list_tutors db w2).1 = (list_tutors db w).1).
  { intros w2 Hc. destruct db as [d|]; [|done]. rewrite !list_tutors_run.
    unfold collection. rewrite Hc. by apply for_each_tutor_view_result. }
  split; apply H.
  - destruct db as [d|]; [|done]. rewrite list_tutors_run.
    apply (for_each_tutor_view_frame _ (log (OpFind "tutor" ∅) w)).
  - destruct (test_database_returns db' env w) as [resp ->].
    by destruct db'.
Qed.

End listing_more.

Lemma list_tutors_queries_demo :
  @list_tutors strict_lib (Some demo_db) demo_store
  = (inr demo_views, demo_listing.2)
  /\ trace demo_listing.2
     = [ OpFind "tutor" ∅;
         OpFind "availability" {[ "tutor_id" := VStr (oid_hex 1) ]};
         OpFind "availability" {[ "tutor_id" := VStr (oid_hex 2) ]} ].
Proof.
  split; [vm_compute; reflexivity|].
  apply (@list_tutors_queries strict_lib (Some demo_db) demo_store
           demo_listing.2 demo_views).
  vm_compute; reflexivity.
Defined.

Lemma list_tutors_first_failure_mixed :
  (@list_tutors strict_lib (Some demo_db) mixed_store).1
  = inl (ValidationError "TutorOut" ["name"])
  /\ trace (@list_tutors strict_lib (Some demo_db) mixed_store).2
     = trace mixed_store
       ++ OpFind "tutor" ∅
          :: ((fun t => OpFind "availability"
                          {[ "tutor_id" := VStr (@py_str strict_lib (py_get t "_id")) ]})
                <$> ([ {[ "_id" := VOid 1; "name" := VStr "Ada Park" ]} ]
                     ++ [ {[ "_id" := VOid 2; "subjects" := VList [VStr "Math"] ]} ])).
Proof.
  apply (@list_tutors_first_failure strict_lib demo_db mixed_store
           [ {[ "_id" := VOid 1; "name" := VStr "Ada Park" ]} ]
           [ {[ "_id" := VOid 3; "name" := VStr "Cy Roe"; "subjects" := VNull ]} ]
           {[ "_id" := VOid 2; "subjects" := VList [VStr "Math"] ]}
           (ValidationError "TutorOut" ["name"])).
  - reflexivity.
  - repeat constructor. eexists. vm_compute. reflexivity.
  - vm_compute. reflexivity.
Defined.

Lemma list_tutors_rejects_null_subjects_mixed :
  exists t,
    mixed_store.(colls) !! "tutor"
    = Some [ {[ "_id" := VOid 1; "name" := VStr "Ada Park" ]};
             {[ "_id" := VOid 2; "subjects" := VList [VStr "Math"] ]}; t ]
    /\ t !! "subjects" = Some VNull
    /\ (exists fields,
           (@tutor_view strict_lib t mixed_store).1
           = inl (ValidationError "TutorOut" fields)
           /\ "subjects" ∈ fields)
    /\ exists fields,
        (@list_tutors strict_lib (Some demo_db) mixed_store).1
        = inl (ValidationError "TutorOut" fields).
Proof.
  eexists. split; [reflexivity|]. split; [vm_compute; reflexivity|].
  apply (@list_tutors_rejects_null_subjects strict_lib demo_db mixed_store).
  - do 2 apply list_elem_of_further. apply list_elem_of_here.
  - vm_compute; reflexivity.
Defined.

Lemma availability_records_of_their_tutor_demo :
  (length <$> (TutorOut.availabilities <$> demo_views)) = [2%nat; 0%nat]
  /\ Forall
       (fun v =>
          Forall (fun r : doc => r !! "tutor_id" = Some (VStr (TutorOut.id v)))
            (TutorOut.availabilities v))
       demo_views.
Proof.
  split; [vm_compute; reflexivity|].
  apply (@availability_records_of_their_tutor strict_lib (Some demo_db)
           demo_store demo_listing.2).
  vm_compute; reflexivity.
Defined.

(** ** More on the seed *)

Lemma for_each_create_trace {E} (c : string) (docs : list doc) : forall w : world,
  trace (for_each (create_document (E:=E) c) docs w).2
  = trace w ++ (OpInsert c <$> stored (next_oid w) docs).
Proof.
  induction docs as [|d docs IH]; intros w.
  - simpl. by rewrite app_nil_r.
  - cbn [for_each]. rewrite bind_run, create_document_run.
    set (w1 := World _ _ _ _).
    specialize (IH w1).
    destruct (for_each_create (E:=E) c docs w1) as (w' & Hrun & _).
    rewrite bind_run, Hrun. rewrite Hrun in IH.
    unfold mret, M_ret. cbn [snd] in *.
    rewrite IH. subst w1. cbn [trace next_oid].
    rewrite <- app_assoc. f_equal. unfold stored. rewrite imap_cons.
    cbn [fmap list_fmap app]. rewrite N.add_0_r. do 2 f_equal.
    apply imap_ext. intros i x _. simpl. f_equal. f_equal. lia.
Qed.

(** The seed of a store without tutor documents, in full. *)
Lemma seed_run_fresh_full (d : Database.t) (today : Z) (w : world) :
  date_min <= today ->
  today + 5 <= date_max ->
  collection w "tutor" = [] ->
  let n := next_oid w in
  let slots := slots_for (oid_hex n) (oid_hex (n + 1)) (oid_hex (n + 2)) today in
  exists w',
    seed_sample_data (Some d) today w = (inr seeded_response, w')
    /\ collection w' "tutor" = stored n seed_tutors
    /\ collection w' "availability"
       = collection w "availability" ++ stored (n + 3) slots
    /\ (forall c, c <> "tutor" -> c <> "availability" ->
        collection w' c = collection w c)
    /\ next_oid w' = (n + 8)%N
    /\ list_fault w' = list_fault w
    /\ trace w'
       = trace w ++ OpCount "tutor" ∅
                    :: (OpInsert "tutor" <$> stored n seed_tutors)
                    ++ (OpInsert "availability" <$> stored (n + 3) slots).
Proof.
  intros Hmin Hmax Hempty n slots. unfold seed_sample_data.
  rewrite bind_run, count_documents_all.
  assert (Hlog : forall o c, collection (log o w) c = collection w c)
    by reflexivity.
  rewrite Hempty. change (0 <? Z.of_nat (length (@nil doc))) with false.
  cbv iota.
  pose proof (for_each_create_trace (E:=exn) "tutor" seed_tutors
                (log (OpCount "tutor" ∅) w)) as Ht1.
  destruct (for_each_create (E:=exn) "tutor" seed_tutors
              (log (OpCount "tutor" ∅) w))
    as (w1 & Hrun1 & Hc1 & Ho1 & Hn1 & Hf1).
  rewrite Hrun1 in Ht1. rewrite bind_run, Hrun1.
  change (next_oid (log (OpCount "tutor" ∅) w)) with n in *.
  rewrite new_ids_seed_tutors, bind_run, seed_slots_run by assumption.
  fold slots.
  pose proof (for_each_create_trace (E:=exn) "availability" slots w1) as Ht2.
  destruct (for_each_create (E:=exn) "availability" slots w1)
    as (w2 & Hrun2 & Hc2 & Ho2 & Hn2 & Hf2).
  rewrite Hrun2 in Ht2. rewrite bind_run, Hrun2. cbn [snd] in *.
  assert (Hn1' : next_oid w1 = (n + 3)%N) by (rewrite Hn1; reflexivity).
  exists w2. split; [reflexivity|].
  split; [|split; [|split; [|split; [|split]]]].
  - rewrite Ho2 by done. rewrite Hc1, Hlog, Hempty. reflexivity.
  - rewrite Hc2, Ho1 by done. rewrite Hlog, Hn1'. reflexivity.
  - intros c H1 H2. rewrite Ho2, Ho1 by done. apply Hlog.
  - rewrite Hn2, Hn1'. unfold slots, slots_for. cbn [length]. lia.
  - rewrite Hf2, Hf1. reflexivity.
  - rewrite Ht2, Ht1, Hn1'. cbn [log trace]. rewrite <- !app_assoc. reflexivity.
Qed.

(** X7 (the writes of a seed). A seed call at a date at least five days
    before [date_max] on a store without tutor documents sends the store one count of the tutors, then the three tutor
    inserts, then the five availability inserts, and nothing else: eight
    writes, the tutors first; the documents inserted are the documents the
    collections gain, and the store has handed out eight identifiers. *)
Theorem seed_store_operations (d : Database.t) (today : Z) (w : world) :
  date_min <= today ->
  today + 5 <= date_max ->
  collection w "tutor" = [] ->
  exists w' tutors slots,
    seed_sample_data (Some d) today w = (inr seeded_response, w')
    /\ length tutors = 3%nat /\ length slots = 5%nat
    /\ trace w'
       = trace w ++ OpCount "tutor" ∅
                    :: (OpInsert "tutor" <$> tutors)
                    ++ (OpInsert "availability" <$> slots)
    /\ collection w' "tutor" = tutors
    /\ collection w' "availability" = collection w "availability" ++ slots
    /\ next_oid w' = (next_oid w + 8)%N.
Proof.
  intros Hmin Hmax Ht.
  destruct (seed_run_fresh_full d today w Hmin Hmax Ht)
    as (w' & Hrun & Hct & Hca & _ & Hn & _ & Htr).
  eexists w', _, _. split; [exact Hrun|].
  split; [|split; [|split; [exact Htr|]]].
  - by rewrite stored_length.
  - by rewrite stored_length.
  - auto.
Qed.

Lemma seed_store_operations_leftover :
  exists w' tutors slots,
    seed_sample_data (Some demo_db) 739924 leftover_store
    = (inr seeded_response, w')
    /\ length tutors = 3%nat /\ length slots = 5%nat
    /\ trace w'
       = trace leftover_store
         ++ OpCount "tutor" ∅
            :: (OpInsert "tutor" <$> tutors)
            ++ (OpInsert "availability" <$> slots)
    /\ collection w' "tutor" = tutors
    /\ collection w' "availability"
       = collection leftover_store "availability" ++ slots
    /\ next_oid w' = (next_oid leftover_store + 8)%N.
Proof.
  apply (seed_store_operations demo_db 739924 leftover_store);
    [unfold date_min; lia | unfold date_max; lia | reflexivity..].
Defined.

(** X8 (seeded slots have their tutor). A seed call at a date at least five
    days before [date_max] on a store without tutor documents appends slots each of which refers, by [tutor_id], to the
    string form of the identifier of a tutor document the same call
    inserted, whatever the availability collection held before. *)
Theorem seed_slots_refer_to_seeded_tutors `{PyLib}
    (d : Database.t) (today : Z) (w : world) :
  date_min <= today ->
  today + 5 <= date_max ->
  collection w "tutor" = [] ->
  exists w' slots,
    seed_sample_data (Some d) today w = (inr seeded_response, w')
    /\ collection w' "availability" = collection w "availability" ++ slots
    /\ Forall
         (fun a : doc =>
            exists t, t ∈ collection w' "tutor"
                      /\ a !! "tutor_id" = Some (VStr (py_str (py_get t "_id"))))
         slots.
Proof.
  intros Hmin Hmax Ht.
  destruct (seed_run_fresh_full d today w Hmin Hmax Ht)
    as (w' & Hrun & Hct & Hca & _).
  eexists w', _. split; [exact Hrun|]. split; [exact Hca|].
  rewrite Hct. unfold slots_for, seed_tutors.
  rewrite stored_slots, stored_three.
  repeat apply Forall_cons_2; [..|apply Forall_nil_2];
    rewrite Availability_stored_tutor_id.
  - eexists. split; [apply list_elem_of_here|].
    by rewrite stored_py_str, N.add_0_r.
  - eexists. split; [apply list_elem_of_here|].
    by rewrite stored_py_str, N.add_0_r.
  - eexists. split; [apply list_elem_of_further, list_elem_of_here|].
    by rewrite stored_py_str.
  - eexists. split; [apply list_elem_of_further, list_elem_of_here|].
    by rewrite stored_py_str.
  - eexists. split;
      [apply list_elem_of_further, list_elem_of_further, list_elem_of_here|].
    by rewrite stored_py_str.
Qed.

Lemma seed_slots_refer_to_seeded_tutors_leftover :
  exists w' slots,
    seed_sample_data (Some demo_db) 739924 leftover_store
    = (inr seeded_response, w')
    /\ collection w' "availability"
       = collection leftover_store "availability" ++ slots
    /\ Forall
         (fun a : doc =>
            exists t, t ∈ collection w' "tutor"
                      /\ a !! "tutor_id"
                         = Some (VStr (@py_str strict_lib (py_get t "_id"))))
         slots.
Proof.
  apply (@seed_slots_refer_to_seeded_tutors strict_lib demo_db 739924
           leftover_store);
    [unfold date_min; lia | unfold date_max; lia | reflexivity..].
Defined.

(** X9 (the seed only appends). For every handle, date and store state, a
    seed call, whether it returns or raises, leaves each collection with the
    documents it held, in their order, followed by the documents it gained:
    it never changes, reorders or removes a stored document. *)
Theorem seed_append_only (db : option Database.t) (today : Z) (w : world)
    (c : string) :
  exists new,
    collection (seed_sample_data db today w).2 c = collection w c ++ new.
Proof.
  destruct db as [d|]; [|exists []; by rewrite app_nil_r].
  destruct (collection w "tutor") as [|t l] eqn:Ht.
  - unfold seed_sample_data. rewrite bind_run, count_documents_all, Ht.
    change (0 <? Z.of_nat (length (@nil doc))) with false. cbv iota.
    assert (Hlog : forall o c', collection (log o w) c' = collection w c')
      by reflexivity.
    destruct (for_each_create (E:=exn) "tutor" seed_tutors
                (log (OpCount "tutor" ∅) w))
      as (w1 & Hrun1 & Hc1 & Ho1 & _).
    rewrite bind_run, Hrun1, bind_run.
    pose proof (seed_slots_state
                  (new_ids (next_oid (log (OpCount "tutor" ∅) w)) seed_tutors)
                  today w1) as Hs.
    destruct (seed_slots _ today w1) as [[e|slots] w1']; cbn [snd] in Hs;
      subst w1'.
    + cbn [snd]. destruct (decide ("tutor" = c)) as [<-|H1].
      * eexists. rewrite Hc1, Hlog. reflexivity.
      * exists []. rewrite app_nil_r, Ho1 by exact H1. apply Hlog.
    + destruct (for_each_create (E:=exn) "availability" slots w1)
        as (w2 & Hrun2 & Hc2 & Ho2 & _).
      rewrite bind_run, Hrun2. unfold mret, M_ret. cbn [snd].
      destruct (decide ("availability" = c)) as [<-|H2].
      * eexists. rewrite Hc2, Ho1 by done. rewrite Hlog. reflexivity.
      * rewrite Ho2 by exact H2.
        destruct (decide ("tutor" = c)) as [<-|H1].
        -- eexists. rewrite Hc1, Hlog. reflexivity.
        -- exists []. rewrite app_nil_r, Ho1 by exact H1. apply Hlog.
  - rewrite seed_run_existing by (rewrite Ht; discriminate).
    exists []. by rewrite app_nil_r.
Qed.

Section seed_then_list.
Context `{L : PyLib}.

(** What the view of a stored seed tutor holds. *)
Lemma seeded_tutor_view (w : world) (m : N) nm sb bi lo ph ra
    (v : TutorOut.t) :
  (tutor_view
     (<["_id" := VOid m]> (Tutor nm sb (Some bi) (Some lo) (Some ph) (Some ra)))
     w).1
  = inr v ->
  TutorOut.id v = oid_hex m /\ TutorOut.name v = nm /\ TutorOut.subjects v = sb
  /\ TutorOut.bio v = Some bi /\ TutorOut.location v = Some lo
  /\ TutorOut.photo_url v = Some ph /\ TutorOut.rating v = Some ra
  /\ (fun r : doc => r !! "date") <$> TutorOut.availabilities v
     = (fun a : doc => a !! "date") <$>
         List.filter
           (fun a => bool_decide (a !! "tutor_id" = Some (VStr (oid_hex m))))
           (collection w "availability").
Proof.
  intros Hv.
  apply tutor_view_inr in Hv as (Hid & Hav & Hn & Hs & Hb & Hl & Hp & Hr).
  rewrite stored_py_str in Hid, Hav.
  unfold py_get, py_get_default in *.
  rewrite !lookup_insert_ne in * by done.
  change (Some nm = Some (TutorOut.name v)) in Hn.
  change (Some (Some bi) = Some (TutorOut.bio v)) in Hb.
  change (Some (Some lo) = Some (TutorOut.location v)) in Hl.
  change (Some (Some ph) = Some (TutorOut.photo_url v)) in Hp.
  change (Some (Some ra) = Some (TutorOut.rating v)) in Hr.
  change (mapM validate_str (VStr <$> sb) = Some (TutorOut.subjects v)) in Hs.
  assert (Hsb : mapM validate_str (VStr <$> sb) = Some sb).
  { clear. induction sb as [|s sb IH]; [reflexivity|].
    cbn [fmap list_fmap mapM]. simpl. rewrite IH. reflexivity. }
  rewrite Hsb in Hs.
  repeat split; try congruence.
  rewrite Hav, <- list_fmap_compose. apply list_fmap_ext.
  intros i a _. simpl. by apply shape_availability_other.
Qed.

(** X10 (seed, then list). After a seed call at a date at least five days
    before [date_max] on a store with empty tutor and availability
    collections, the listing returns three views, in the
    order of the seed: each with the string form of the identifier the store
    assigned, the name, subjects, location and rating that were seeded, and
    the slots of that tutor, dated [today] plus 1 and 3 days, plus 2 and 5
    days, and plus 1 day. *)
Theorem seed_then_list (d d2 : Database.t) (today : Z) (w : world) :
  date_min <= today ->
  today + 5 <= date_max ->
  collection w "tutor" = [] ->
  collection w "availability" = [] ->
  exists w' views w'',
    seed_sample_data (Some d) today w = (inr seeded_response, w')
    /\ list_tutors (Some d2) w' = (inr views, w'')
    /\ (fun v => (TutorOut.id v, TutorOut.name v, TutorOut.subjects v,
                  TutorOut.location v, TutorOut.rating v,
                  (fun r : doc => r !! "date") <$> TutorOut.availabilities v))
         <$> views
       = [ (oid_hex (next_oid w), "Alex Chen", ["Math"; "Physics"],
            Some "San Francisco, CA", Some "4.8",
            [Some (VStr (date_str (today + 1)));
             Some (VStr (date_str (today + 3)))]);
           (oid_hex (next_oid w + 1), "Priya Sharma",
            ["English"; "Writing"; "SAT"], Some "New York, NY", Some "4.9",
            [Some (VStr (date_str (today + 2)));
             Some (VStr (date_str (today + 5)))]);
           (oid_hex (next_oid w + 2), "Miguel Alvarez",
            ["Chemistry"; "Biology"], Some "Austin, TX", Some "4.7",
            [Some (VStr (date_str (today + 1)))]) ].
Proof.
  intros Hmin Hmax Ht Ha.
  destruct (seed_run_fresh d today w Hmin Hmax Ht)
    as (w' & Hrun & Hct & Hca & _).
  rewrite Ha in Hca. cbn [app] in Hca.
  unfold seed_tutors in Hct. rewrite stored_three in Hct.
  destruct (for_each_tutor_view_total (collection w' "tutor")
              (log (OpFind "tutor" ∅) w') w' eq_refl) as (views & w'' & Hlist).
  { rewrite Hct. repeat apply Forall_cons_2; [..|apply Forall_nil_2];
      by apply well_typed_view. }
  exists w', views, w''. split; [exact Hrun|].
  rewrite list_tutors_run. split; [exact Hlist|].
  apply for_each_tutor_view_inr in Hlist as [Hviews _].
  rewrite Hct in Hviews.
  apply Forall2_cons_inv_l in Hviews as (v0 & vs0 & H0 & Hviews & ->).
  apply Forall2_cons_inv_l in Hviews as (v1 & vs1 & H1 & Hviews & ->).
  apply Forall2_cons_inv_l in Hviews as (v2 & vs2 & H2 & Hviews & ->).
  apply Forall2_nil_inv_l in Hviews as ->.
  rewrite (tutor_view_stable _ (log (OpFind "tutor" ∅) w') w' eq_refl) in H0.
  rewrite (tutor_view_stable _ (log (OpFind "tutor" ∅) w') w' eq_refl) in H1.
  rewrite (tutor_view_stable _ (log (OpFind "tutor" ∅) w') w' eq_refl) in H2.
  cbn [fmap list_fmap].
  apply seeded_tutor_view in H0 as (-> & -> & -> & _ & -> & _ & -> & Hd0).
  apply seeded_tutor_view in H1 as (-> & -> & -> & _ & -> & _ & -> & Hd1).
  apply seeded_tutor_view in H2 as (-> & -> & -> & _ & -> & _ & -> & Hd2).
  rewrite Hd0, Hd1, Hd2, Hca, !slots_for_dates.
  rewrite N.add_0_r.
  destruct (seeded_ids_apart (next_oid w)) as (H01 & H02 & H12).
  repeat (case_bool_decide; try congruence).
  reflexivity.
Qed.

End seed_then_list.

Lemma seed_then_list_empty :
  exists w' views w'',
    seed_sample_data (Some demo_db) 739924 empty_store
    = (inr seeded_response, w')
    /\ @list_tutors strict_lib (Some demo_db) w' = (inr views, w'')
    /\ (fun v => (TutorOut.id v, TutorOut.name v, TutorOut.subjects v,
                  TutorOut.location v, TutorOut.rating v,
                  (fun r : doc => r !! "date") <$> TutorOut.availabilities v))
         <$> views
       = [ ("000000000000000000000000", "Alex Chen", ["Math"; "Physics"],
            Some "San Francisco, CA", Some "4.8",
            [Some (VStr "2026-11-05"); Some (VStr "2026-11-07")]);
           ("000000000000000000000001", "Priya Sharma",
            ["English"; "Writing"; "SAT"], Some "New York, NY", Some "4.9",
            [Some (VStr "2026-11-06"); Some (VStr "2026-11-09")]);
           ("000000000000000000000002", "Miguel Alvarez",
            ["Chemistry"; "Biology"], Some "Austin, TX", Some "4.7",
            [Some (VStr "2026-11-05")]) ].
Proof.
  apply (@seed_then_list strict_lib demo_db demo_db 739924 empty_store);
    [unfold date_min; lia | unfold date_max; lia | reflexivity..].
Defined.

(** ** More on the diagnostic *)

Lemma initial_response_dom : dom initial_response = test_keys.
Proof. reflexivity. Qed.

Lemma dom_set (k : string) (v : value) (r : doc) :
  k ∈ test_keys -> dom r = test_keys -> dom (<[k := v]> r) = test_keys.
Proof.
  intros Hk Hr. rewrite dom_insert_L, Hr. apply subseteq_union_1_L.
  by apply singleton_subseteq_l.
Qed.

Lemma backend_set (k : string) (v : value) (r : doc) :
  k <> "backend" -> r !! "backend" = Some (VStr "✅ Running") ->
  <[k := v]> r !! "backend" = Some (VStr "✅ Running").
Proof. intros Hk Hr. by rewrite lookup_insert_ne. Qed.

Lemma py_slice_to_split (n : nat) (s : string) :
  exists rest, s = py_slice_to n s +:+ rest
               /\ String.length (py_slice_to n s) = Nat.min n (String.length s).
Proof.
  unfold py_slice_to. revert s. induction n as [|n IH]; intros [|c s]; simpl.
  - by exists "".
  - by eexists.
  - by exists "".
  - destruct (IH s) as (rest & Hs & Hl). exists rest.
    split; [|by rewrite Hl].
    change (String c s = String c (substring 0 n s +:+ rest)). by rewrite <- Hs.
Qed.

(** X11 (the shape of the diagnostic's response). For every handle,
    environment and store state the response holds exactly the six fields
    [backend], [database], [database_url], [database_name],
    [connection_status] and [collections], and [backend] is
    ["✅ Running"]. *)
Theorem test_database_fields (db : option Database.t)
    (env : gmap string string) (w : world) :
  exists resp,
    (test_database db env w).1 = inr resp
    /\ dom resp = test_keys
    /\ resp !! "backend" = Some (VStr "✅ Running").
Proof.
  destruct db as [d|]; [destruct w as [c n [msg|] t] |];
    (eexists; split; [reflexivity|]; split).
  all: cbn [fst snd].
  all: repeat first [ exact initial_response_dom
                    | exact (eq_refl : initial_response !! "backend" = _)
                    | apply dom_set; [by vm_compute|]
                    | apply backend_set; [done|] ].
Qed.

(** X12 (a store that answers). With a handle and a store whose collection
    listing succeeds, the diagnostic reports
    [database: "✅ Connected & Working"], [connection_status: "Connected"]
    and, under [collections], names of collections of the store without
    repetition: all of them when there are at most ten, and ten of them
    otherwise. *)
Theorem test_database_healthy (d : Database.t) (env : gmap string string)
    (w : world) :
  list_fault w = None ->
  exists names,
    response_field "collections" (test_database (Some d) env w)
    = Some (VList (VStr <$> names))
    /\ response_field "database" (test_database (Some d) env w)
       = Some (VStr "✅ Connected & Working")
    /\ response_field "connection_status" (test_database (Some d) env w)
       = Some (VStr "Connected")
    /\ length names = Nat.min 10 (size (colls w))
    /\ NoDup names
    /\ forall c, c ∈ names -> is_Some (colls w !! c).
Proof.
  intros Hf. exists (take 10 (map_to_list (colls w)).*1).
  split; [|split; [|split; [|split; [|split]]]].
  - destruct w as [c n f t]; simpl in Hf; subst f. reflexivity.
  - destruct w as [c n f t]; simpl in Hf; subst f. reflexivity.
  - destruct w as [c n f t]; simpl in Hf; subst f. reflexivity.
  - by rewrite length_take, length_fmap, length_map_to_list.
  - apply (sublist_NoDup _ (map_to_list (colls w)).*1);
      [apply NoDup_fst_map_to_list | apply sublist_take].
  - intros c Hc. apply elem_of_take in Hc as (i & Hi & _).
    apply list_elem_of_lookup_2 in Hi.
    apply list_elem_of_fmap in Hi as ([c' x] & -> & Hx).
    apply elem_of_map_to_list in Hx. by eexists.
Qed.

Lemma test_database_healthy_crowded :
  size (colls crowded_store) = 12%nat
  /\ exists names,
      response_field "collections"
        (test_database (Some demo_db) env_full_url crowded_store)
      = Some (VList (VStr <$> names))
      /\ response_field "database"
           (test_database (Some demo_db) env_full_url crowded_store)
         = Some (VStr "✅ Connected & Working")
      /\ response_field "connection_status"
           (test_database (Some demo_db) env_full_url crowded_store)
         = Some (VStr "Connected")
      /\ length names = Nat.min 10 (size (colls crowded_store))
      /\ NoDup names
      /\ forall c, c ∈ names -> is_Some (colls crowded_store !! c).
Proof.
  split; [vm_compute; reflexivity|].
  apply (test_database_healthy demo_db env_full_url crowded_store).
  reflexivity.
Defined.

(** X13 (what is cut from the message). When listing the collections
    raises, the [database] field holds the marker followed by a prefix of
    the exception's message: the whole message when it has at most 50
    characters, its first 50 characters otherwise. *)
Theorem test_database_message_cut (d : Database.t) (env : gmap string string)
    (w : world) (msg : string) :
  list_fault w = Some msg ->
  exists cut rest,
    response_field "database" (test_database (Some d) env w)
    = Some (VStr ("⚠️  Connected but Error: " +:+ cut))
    /\ msg = cut +:+ rest
    /\ String.length cut = Nat.min 50 (String.length msg).
Proof.
  intros Hmsg. destruct (py_slice_to_split 50 msg) as (rest & Hs & Hl).
  exists (py_slice_to 50 msg), rest. split; [|done].
  destruct w as [c n f t]; simpl in Hmsg; subst f. reflexivity.
Qed.

Lemma test_database_message_cut_failing :
  exists cut rest,
    response_field "database"
      (test_database (Some demo_db) env_full_url failing_store)
    = Some (VStr ("⚠️  Connected but Error: " +:+ cut))
    /\ "localhost:27017: [Errno 111] Connection refused, Timeout: 30s, Topology Description: <unknown>"
       = cut +:+ rest
    /\ String.length cut
       = Nat.min 50
           (String.length
              "localhost:27017: [Errno 111] Connection refused, Timeout: 30s, Topology Description: <unknown>").
Proof.
  apply (test_database_message_cut demo_db env_full_url failing_store).
  reflexivity.
Defined.

(** X14 (the handle's name stays inside). The response and the store after
    the diagnostic are the same for any two handles: the [database_name]
    taken from the handle is overwritten before the response is returned. *)
Theorem test_database_hides_handle (d d' : Database.t)
    (env : gmap string string) (w : world) :
  test_database (Some d) env w = test_database (Some d') env w.
Proof.
  destruct w as [c n [msg|] t]; reflexivity.
Qed.

(** ** The seed near the last date *)

Lemma date_add_cases {S} (d k : Z) (s : S) :
  (date_min <= d + k <= date_max /\ date_add d k s = (inr (d + k), s))
  \/ date_add d k s = (inl OverflowError, s).
Proof.
  unfold date_add. destruct (_ && _) eqn:E; [left | by right].
  apply andb_true_iff in E as [H1%Z.leb_le H2%Z.leb_le]. done.
Qed.

Lemma seed_slots_overflow {S} (id0 id1 id2 : string) (today : Z) (s : S) :
  date_max < today + 5 ->
  seed_slots [id0; id1; id2] today s = (inl OverflowError, s).
Proof.
  intros Hlate. unfold seed_slots.
  repeat (rewrite bind_run;
          first [ erewrite py_index_run by reflexivity
                | match goal with
                  | |- context [date_add today ?k s] =>
                      destruct (date_add_cases today k s) as [[? ->]| ->];
                      [|reflexivity]
                  end ];
          cbv beta iota).
  exfalso. lia.
Qed.

(** X15 (a seed within four days of the last date). At a date [today] whose
    fifth next day is past [date_max], a seed call on a store without tutor
    documents raises [OverflowError] (HTTP 500) after it has inserted the
    three tutors and before it inserts any slot: the tutor collection holds
    the three tutors, every other collection is as it was, and every later
    seed call finds the tutors and returns
    [{message: "Data already exists", tutors: 3}] without writing. *)
Theorem seed_overflow_leaves_tutors (d : Database.t) (today : Z) (w : world) :
  today <= date_max ->
  date_max < today + 5 ->
  collection w "tutor" = [] ->
  exists w',
    seed_sample_data (Some d) today w = (inl OverflowError, w')
    /\ http_status exn_status (seed_sample_data (Some d) today w).1 = 500
    /\ collection w' "tutor" = stored (next_oid w) seed_tutors
    /\ length (collection w' "tutor") = 3%nat
    /\ (forall c, c <> "tutor" -> collection w' c = collection w c)
    /\ forall (d2 : Database.t) (today2 : Z),
        seed_sample_data (Some d2) today2 w'
        = (inr (exists_response 3), log (OpCount "tutor" ∅) w').
Proof.
  intros _ Hlate Hempty.
  assert (Hrun : exists w',
             seed_sample_data (Some d) today w = (inl OverflowError, w')
             /\ collection w' "tutor" = stored (next_oid w) seed_tutors
             /\ (forall c, c <> "tutor" -> collection w' c = collection w c)).
  { unfold seed_sample_data. rewrite bind_run, count_documents_all, Hempty.
    change (0 <? Z.of_nat (length (@nil doc))) with false. cbv iota.
    assert (Hlog : forall o c, collection (log o w) c = collection w c)
      by reflexivity.
    destruct (for_each_create (E:=exn) "tutor" seed_tutors
                (log (OpCount "tutor" ∅) w))
      as (w1 & Hrun1 & Hc1 & Ho1 & _).
    rewrite bind_run, Hrun1.
    change (next_oid (log (OpCount "tutor" ∅) w)) with (next_oid w) in *.
    rewrite new_ids_seed_tutors, bind_run, seed_slots_overflow by exact Hlate.
    exists w1. split; [reflexivity|]. split.
    - rewrite Hc1, Hlog, Hempty. reflexivity.
    - intros c Hc. rewrite Ho1 by done. apply Hlog. }
  destruct Hrun as (w' & Hrun & Hct & Ho).
  assert (Hlen : length (collection w' "tutor") = 3%nat).
  { rewrite Hct, stored_length. reflexivity. }
  exists w'. rewrite Hrun.
  split; [reflexivity|]. split; [reflexivity|]. split; [exact Hct|].
  split; [exact Hlen|]. split; [exact Ho|].
  intros d2 today2. rewrite seed_run_existing.
  - by rewrite Hlen.
  - intros E. rewrite E in Hlen. discriminate.
Qed.

Lemma seed_overflow_leaves_tutors_late :
  exists w',
    seed_sample_data (Some demo_db) 3652058 empty_store
    = (inl OverflowError, w')
    /\ http_status exn_status
         (seed_sample_data (Some demo_db) 3652058 empty_store).1 = 500
    /\ collection w' "tutor" = stored (next_oid empty_store) seed_tutors
    /\ length (collection w' "tutor") = 3%nat
    /\ (forall c, c <> "tutor" -> collection w' c = collection empty_store c)
    /\ forall (d2 : Database.t) (today2 : Z),
        seed_sample_data (Some d2) today2 w'
        = (inr (exists_response 3), log (OpCount "tutor" ∅) w').
Proof.
  apply (seed_overflow_leaves_tutors demo_db 3652058 empty_store);
    [unfold date_max; lia | unfold date_max; lia | reflexivity].
Defined.

(** The seed on 9999-12-30: three tutors, no slot. *)
Example seed_overflow_sample :
  (seed_sample_data (Some demo_db) 3652058 empty_store).1 = inl OverflowError
  /\ length (collection (seed_sample_data (Some demo_db) 3652058 empty_store).2
               "tutor") = 3%nat
  /\ collection (seed_sample_data (Some demo_db) 3652058 empty_store).2
       "availability" = [].
Proof. repeat split; vm_compute; reflexivity. Qed.
